(** * The asynchronous job lifecycle client of the FindAll handler

    A shallow embedding of
    [src/tools/web_search/parallel_web_systems/handlers/findall_handler.py]:
    the [FindAllHandler] class (create, status, results, extend, enrich,
    cancel, wait_for_completion) and the module-level UDF entry points.

    Python values are modelled by the type [value]; a Python [dict] is an
    association list in insertion order.  The code talks to three
    collaborators: the injected secret module, the [requests] library and
    the clock ([time.time], [time.sleep]).  They are modelled by a [World]:
    a clock, an unbounded script of the replies that the network gives in
    the run (one per request, in order), what [time.sleep] does with a
    length on the platform, and a log of what the program did (requests
    sent and sleeps).  An exception deriving from [Exception] is modelled by
    its message [str(e)]; an exception that does not derive from
    [Exception] (KeyboardInterrupt, SystemExit), which [except Exception]
    does not catch, is modelled by the name of its class. *)

From Stdlib Require Import String Ascii List ZArith QArith Lia Lqa Bool DecimalString.
Import ListNotations.
Local Open Scope string_scope.

(** ** Python values *)

#[local] Set Warnings "-register-all".

Inductive value : Type :=
| VNone
| VBool (b : bool)
| VInt (n : Z)
| VFloat (q : Q)
| VStr (s : string)
| VList (l : list value)
| VDict (d : list (string * value)).

Definition dict := list (string * value).

(** [d.get(k)] on a dict, as an option. *)
Fixpoint lookup (k : string) (d : dict) : option value :=
  match d with
  | [] => None
  | (k', v) :: d' => if String.eqb k k' then Some v else lookup k d'
  end.

(** [d.get(k)]: [None] when the key is absent. *)
Definition dict_get (d : dict) (k : string) : value :=
  match lookup k d with Some v => v | None => VNone end.

(** [bool(v)]. *)
Definition truthy (v : value) : bool :=
  match v with
  | VNone => false
  | VBool b => b
  | VInt n => negb (n =? 0)%Z
  | VFloat q => negb (Qeq_bool q 0)
  | VStr s => negb (String.eqb s "")
  | VList l => match l with [] => false | _ => true end
  | VDict d => match d with [] => false | _ => true end
  end.

(** [type(v).__name__]. *)
Definition type_name (v : value) : string :=
  match v with
  | VNone => "NoneType"
  | VBool _ => "bool"
  | VInt _ => "int"
  | VFloat _ => "float"
  | VStr _ => "str"
  | VList _ => "list"
  | VDict _ => "dict"
  end.

(** [str(n)] for an int. *)
Definition string_of_Z (z : Z) : string := NilZero.string_of_int (Z.to_int z).

(** ** Exceptions *)

(** The outcome of a computation: a value, an exception deriving from
    [Exception] (with its message), or an exception that does not derive
    from it (with the name of its class). *)
Inductive exc (A : Type) : Type :=
| Val (a : A)
| Exn (msg : string)
| Abort (name : string).
Arguments Val {A} a.
Arguments Exn {A} msg.
Arguments Abort {A} name.

(** [v.get(k, default)]: only a dict has the method. *)
Definition get (v : value) (k : string) (default : value) : exc value :=
  match v with
  | VDict d => Val (match lookup k d with Some x => x | None => default end)
  | _ => Exn ("'" ++ type_name v ++ "' object has no attribute 'get'")
  end.

(** [for c in v]: the sequence a [for] loop runs over. *)
Definition iterate (v : value) : exc (list value) :=
  match v with
  | VList l => Val l
  | VStr s => Val (map (fun c => VStr (String c "")) (list_ascii_of_string s))
  | VDict d => Val (map (fun kv => VStr (fst kv)) d)
  | _ => Exn ("'" ++ type_name v ++ "' object is not iterable")
  end.

(** [len(v)]. *)
Definition len (v : value) : exc Z :=
  match v with
  | VList l => Val (Z.of_nat (length l))
  | VStr s => Val (Z.of_nat (String.length s))
  | VDict d => Val (Z.of_nat (length d))
  | _ => Exn ("object of type '" ++ type_name v ++ "' has no len()")
  end.

(** [v == s] for a string literal [s]. *)
Definition eq_str (v : value) (s : string) : bool :=
  match v with
  | VStr s' => String.eqb s' s
  | _ => false
  end.

(** ** The world: clock, network and log *)

Inductive Method := GET | POST.

Record Request := {
  method : Method;
  url : string;
  headers : list (string * string);
  body : option value;      (* the [json=] argument *)
  timeout : Z
}.

Record Response := {
  status_code : Z;
  text : string;
  json : exc value          (* what [response.json()] does *)
}.

(** What the network does with one request: how long the call takes and
    whether it returns a response or raises. *)
Record Reply := {
  latency : Q;
  outcome : exc Response
}.

Inductive Event :=
| Sent (r : Request)
| Slept (secs : Z).

Record World := {
  now : Q;                   (* what [time.time()] returns *)
  replies : nat -> Reply;    (* the reply to the n-th request of the run *)
  served : nat;              (* number of requests sent so far *)
  sleeping : Z -> exc unit;  (* what [time.sleep] does with a length that
                                is not negative, on this platform *)
  log : list Event
}.

(** ** A state and exception monad *)

Definition M (A : Type) : Type := World -> exc A * World.

Definition ret {A} (a : A) : M A := fun w => (Val a, w).

Definition raise {A} (msg : string) : M A := fun w => (Exn msg, w).

Definition bind {A B} (c : M A) (k : A -> M B) : M B :=
  fun w =>
    match c w with
    | (Val a, w') => k a w'
    | (Exn e, w') => (Exn e, w')
    | (Abort e, w') => (Abort e, w')
    end.

Definition lift {A} (e : exc A) : M A := fun w => (e, w).

(** [try: body except Exception as e: handler(str(e))]: an exception that
    does not derive from [Exception] is not caught. *)
Definition try_except {A} (body : M A) (handler : string -> M A) : M A :=
  fun w =>
    match body w with
    | (Val a, w') => (Val a, w')
    | (Exn e, w') => handler e w'
    | (Abort e, w') => (Abort e, w')
    end.

Declare Scope py_scope.
Delimit Scope py_scope with py.
Notation "x <- c ;; k" := (bind c (fun x => k))
  (at level 61, c at next level, right associativity) : py_scope.
Local Open Scope py_scope.

(** [requests.get] / [requests.post]: the request is logged, the next reply
    of the script is consumed and the clock advances by its latency.  The
    script lists the replies of one run, so it says nothing about what the
    network would have answered to other requests. *)
Definition send (r : Request) : M Response :=
  fun w =>
    let rp := replies w (served w) in
    (outcome rp,
     {| now := now w + latency rp;
        replies := replies w;
        served := S (served w);
        sleeping := sleeping w;
        log := (log w ++ [Sent r])%list |}).

Definition requests_get (u : string) (h : list (string * string)) (t : Z)
  : M Response :=
  send {| method := GET; url := u; headers := h; body := None; timeout := t |}.

Definition requests_post (u : string) (h : list (string * string))
  (j : option value) (t : Z) : M Response :=
  send {| method := POST; url := u; headers := h; body := j; timeout := t |}.

(** [time.time()]. *)
Definition time_time : M Q := fun w => (Val (now w), w).

(** [time.sleep(secs)]: raises [ValueError] on a negative length; for
    another length the platform decides (it raises OverflowError or OSError
    when the length is too large for its clock). *)
Definition time_sleep (secs : Z) : M unit :=
  fun w =>
    if (secs <? 0)%Z then (Exn "sleep length must be non-negative", w)
    else
      match sleeping w secs with
      | Val _ =>
          (Val tt,
           {| now := now w + inject_Z secs;
              replies := replies w;
              served := served w;
              sleeping := sleeping w;
              log := (log w ++ [Slept secs])%list |})
      | Exn e => (Exn e, w)
      | Abort e => (Abort e, w)
      end.

(** The secret module injected into the handler. *)
Record SnowflakeModule := {
  get_generic_secret_string : string -> exc string
}.

(** ** The handler class *)

Module FindAllHandler.

Record t := { _snowflake : option SnowflakeModule }.

Definition BASE_URL := "https://api.parallel.ai".
Definition TIMEOUT := 120%Z.
Definition BETA_HEADER := "findall-2025-09-15".
Definition DEFAULT_GENERATOR := "core".
Definition DEFAULT_MATCH_LIMIT := 10%Z.

(** The secret lookup reads no clock and sends nothing: it is a computation
    that only returns or raises. *)
Definition _get_api_key (self : t) : exc string :=
  match _snowflake self with
  | None => Exn "Snowflake module not initialized"
  | Some m => get_generic_secret_string m "api_key"
  end.

Definition _get_headers (self : t) : exc (list (string * string)) :=
  match _get_api_key self with
  | Exn e => Exn e
  | Abort e => Abort e
  | Val key =>
      Val [("x-api-key", key);
           ("Content-Type", "application/json");
           ("parallel-beta", BETA_HEADER)]
  end.

(** [generator or self.DEFAULT_GENERATOR] *)
Definition generator_or (generator : option string) (default : string) : string :=
  match generator with
  | Some g => if truthy (VStr g) then g else default
  | None => default
  end.

(** [match_limit or self.DEFAULT_MATCH_LIMIT] *)
Definition match_limit_or (match_limit : option Z) (default : Z) : Z :=
  match match_limit with
  | Some n => if truthy (VInt n) then n else default
  | None => default
  end.

Definition create_findall_run (self : t) (objective entity_type : string)
  (match_conditions : value) (generator : option string)
  (match_limit : option Z) (exclude_list metadata : value) : M dict :=
  let generator := generator_or generator DEFAULT_GENERATOR in
  let match_limit := match_limit_or match_limit DEFAULT_MATCH_LIMIT in
  try_except
    (let payload :=
       [("objective", VStr objective);
        ("entity_type", VStr entity_type);
        ("match_conditions", match_conditions);
        ("generator", VStr generator);
        ("match_limit", VInt match_limit)] in
     let payload :=
       if truthy exclude_list
       then (payload ++ [("exclude_list", exclude_list)])%list else payload in
     let payload :=
       if truthy metadata
       then (payload ++ [("metadata", metadata)])%list else payload in
     h <- lift (_get_headers self) ;;
     response <- requests_post (BASE_URL ++ "/v1beta/findall/runs") h
                   (Some (VDict payload)) TIMEOUT ;;
     if (status_code response =? 200)%Z then
       result <- lift (json response) ;;
       findall_id <- lift (get result "findall_id" VNone) ;;
       s1 <- lift (get result "status" (VDict [])) ;;
       status <- lift (get s1 "status" VNone) ;;
       s2 <- lift (get result "status" (VDict [])) ;;
       is_active <- lift (get s2 "is_active" VNone) ;;
       gen <- lift (get result "generator" VNone) ;;
       created_at <- lift (get result "created_at" VNone) ;;
       ret [("success", VBool true);
            ("findall_id", findall_id);
            ("status", status);
            ("is_active", is_active);
            ("generator", gen);
            ("created_at", created_at)]
     else
       ret [("success", VBool false);
            ("error", VStr ("HTTP " ++ string_of_Z (status_code response)
                            ++ ": " ++ text response));
            ("objective", VStr objective)])
    (fun e =>
       ret [("success", VBool false);
            ("error", VStr e);
            ("objective", VStr objective)]).

Definition get_findall_status (self : t) (findall_id : string) : M dict :=
  try_except
    (h <- lift (_get_headers self) ;;
     response <- requests_get
                   (BASE_URL ++ "/v1beta/findall/runs/" ++ findall_id)
                   h TIMEOUT ;;
     if (status_code response =? 200)%Z then
       result <- lift (json response) ;;
       status_obj <- lift (get result "status" (VDict [])) ;;
       status <- lift (get status_obj "status" VNone) ;;
       is_active <- lift (get status_obj "is_active" VNone) ;;
       metrics <- lift (get status_obj "metrics" (VDict [])) ;;
       modified_at <- lift (get result "modified_at" VNone) ;;
       ret [("success", VBool true);
            ("findall_id", VStr findall_id);
            ("status", status);
            ("is_active", is_active);
            ("metrics", metrics);
            ("modified_at", modified_at)]
     else
       ret [("success", VBool false);
            ("error", VStr ("HTTP " ++ string_of_Z (status_code response)
                            ++ ": " ++ text response));
            ("findall_id", VStr findall_id)])
    (fun e =>
       ret [("success", VBool false);
            ("error", VStr e);
            ("findall_id", VStr findall_id)]).

(** [[c for c in candidates if c.get('match_status') == 'matched']] over
    the sequence the loop runs over. *)
Fixpoint matched_of (cs : list value) : exc (list value) :=
  match cs with
  | [] => Val []
  | c :: cs' =>
      match get c "match_status" VNone with
      | Exn e => Exn e
      | Abort e => Abort e
      | Val ms =>
          match matched_of cs' with
          | Exn e => Exn e
          | Abort e => Abort e
          | Val rest => Val (if eq_str ms "matched" then c :: rest else rest)
          end
      end
  end.

Definition get_findall_results (self : t) (findall_id : string) : M dict :=
  try_except
    (h <- lift (_get_headers self) ;;
     response <- requests_get
                   (BASE_URL ++ "/v1beta/findall/runs/" ++ findall_id
                    ++ "/result")
                   h TIMEOUT ;;
     if (status_code response =? 200)%Z then
       result <- lift (json response) ;;
       run <- lift (get result "run" (VDict [])) ;;
       candidates <- lift (get result "candidates" (VList [])) ;;
       cs <- lift (iterate candidates) ;;
       matched <- lift (matched_of cs) ;;
       s1 <- lift (get run "status" (VDict [])) ;;
       status <- lift (get s1 "status" VNone) ;;
       s2 <- lift (get run "status" (VDict [])) ;;
       is_active <- lift (get s2 "is_active" VNone) ;;
       total <- lift (len candidates) ;;
       ret [("success", VBool true);
            ("findall_id", VStr findall_id);
            ("status", status);
            ("is_active", is_active);
            ("total_candidates", VInt total);
            ("matched_count", VInt (Z.of_nat (length matched)));
            ("candidates", VList matched)]
     else
       ret [("success", VBool false);
            ("error", VStr ("HTTP " ++ string_of_Z (status_code response)
                            ++ ": " ++ text response));
            ("findall_id", VStr findall_id)])
    (fun e =>
       ret [("success", VBool false);
            ("error", VStr e);
            ("findall_id", VStr findall_id)]).

Definition extend_findall (self : t) (findall_id : string)
  (additional_match_limit : value) : M dict :=
  try_except
    (let payload := [("additional_match_limit", additional_match_limit)] in
     h <- lift (_get_headers self) ;;
     response <- requests_post
                   (BASE_URL ++ "/v1beta/findall/runs/" ++ findall_id
                    ++ "/extend")
                   h (Some (VDict payload)) TIMEOUT ;;
     if (status_code response =? 200)%Z then
       result <- lift (json response) ;;
       new_match_limit <- lift (get result "match_limit" VNone) ;;
       objective <- lift (get result "objective" VNone) ;;
       entity_type <- lift (get result "entity_type" VNone) ;;
       ret [("success", VBool true);
            ("findall_id", VStr findall_id);
            ("new_match_limit", new_match_limit);
            ("objective", objective);
            ("entity_type", entity_type)]
     else
       ret [("success", VBool false);
            ("error", VStr ("HTTP " ++ string_of_Z (status_code response)
                            ++ ": " ++ text response));
            ("findall_id", VStr findall_id)])
    (fun e =>
       ret [("success", VBool false);
            ("error", VStr e);
            ("findall_id", VStr findall_id)]).

Definition enrich_findall (self : t) (findall_id : string)
  (output_schema : value) (processor : value) : M dict :=
  try_except
    (let payload :=
       [("processor", processor); ("output_schema", output_schema)] in
     h <- lift (_get_headers self) ;;
     response <- requests_post
                   (BASE_URL ++ "/v1beta/findall/runs/" ++ findall_id
                    ++ "/enrich")
                   h (Some (VDict payload)) TIMEOUT ;;
     if (status_code response =? 200)%Z then
       result <- lift (json response) ;;
       enrichments <- lift (get result "enrichments" (VList [])) ;;
       objective <- lift (get result "objective" VNone) ;;
       ret [("success", VBool true);
            ("findall_id", VStr findall_id);
            ("enrichments", enrichments);
            ("objective", objective)]
     else
       ret [("success", VBool false);
            ("error", VStr ("HTTP " ++ string_of_Z (status_code response)
                            ++ ": " ++ text response));
            ("findall_id", VStr findall_id)])
    (fun e =>
       ret [("success", VBool false);
            ("error", VStr e);
            ("findall_id", VStr findall_id)]).

Definition cancel_findall (self : t) (findall_id : string) : M dict :=
  try_except
    (h <- lift (_get_headers self) ;;
     response <- requests_post
                   (BASE_URL ++ "/v1beta/findall/runs/" ++ findall_id
                    ++ "/cancel")
                   h None TIMEOUT ;;
     if (status_code response =? 200)%Z then
       result <- lift (json response) ;;
       s1 <- lift (get result "status" (VDict [])) ;;
       status <- lift (get s1 "status" VNone) ;;
       ret [("success", VBool true);
            ("findall_id", VStr findall_id);
            ("status", status);
            ("message", VStr "FindAll run cancelled")]
     else
       ret [("success", VBool false);
            ("error", VStr ("HTTP " ++ string_of_Z (status_code response)
                            ++ ": " ++ text response));
            ("findall_id", VStr findall_id)])
    (fun e =>
       ret [("success", VBool false);
            ("error", VStr e);
            ("findall_id", VStr findall_id)]).

(** [a < b] on clock readings. *)
Definition Qltb (a b : Q) : bool := negb (Qle_bool b a).

(** The [while] loop of [wait_for_completion].  [fuel] bounds the number
    of iterations; the value [None] means that the loop was still running
    when the fuel ran out (the world reached so far is returned with it). *)
Fixpoint wait_loop (fuel : nat) (self : t) (findall_id : string)
  (poll_interval max_wait : Z) (start_time : Q) : M (option dict) :=
  match fuel with
  | O => ret None
  | S fuel' =>
      t1 <- time_time ;;
      if Qltb (t1 - start_time) (inject_Z max_wait) then
        status <- get_findall_status self findall_id ;;
        if negb (truthy (dict_get status "success")) then
          ret (Some status)
        else if negb (truthy (dict_get status "is_active")) then
          r <- get_findall_results self findall_id ;;
          ret (Some r)
        else
          _ <- time_sleep poll_interval ;;
          wait_loop fuel' self findall_id poll_interval max_wait start_time
      else
        ret (Some [("success", VBool false);
                   ("error", VStr ("Timeout after " ++ string_of_Z max_wait
                                   ++ " seconds"));
                   ("findall_id", VStr findall_id)])
  end.

Definition wait_for_completion (fuel : nat) (self : t) (findall_id : string)
  (poll_interval max_wait : Z) : M (option dict) :=
  start_time <- time_time ;;
  wait_loop fuel self findall_id poll_interval max_wait start_time.

End FindAllHandler.

(** ** The UDF entry points (module-level functions)

    [json.loads] and [json.dumps] belong to the Python library; the entry
    points are parameterised by them. *)

Module UDF.
Section EntryPoints.

Variable json_loads : string -> exc value.
Variable json_dumps : value -> string.

Definition create_findall_run (objective entity_type : string)
  (match_conditions_json : value) (generator : option string)
  (match_limit : option Z) (_snowflake_module : option SnowflakeModule)
  : M string :=
  let handler := {| FindAllHandler._snowflake := _snowflake_module |} in
  match_conditions <-
    match match_conditions_json with
    | VStr s => lift (json_loads s)
    | _ => ret match_conditions_json
    end ;;
  result <- FindAllHandler.create_findall_run handler objective entity_type
              match_conditions generator match_limit VNone VNone ;;
  ret (json_dumps (VDict result)).

Definition get_findall_status (findall_id : string)
  (_snowflake_module : option SnowflakeModule) : M string :=
  let handler := {| FindAllHandler._snowflake := _snowflake_module |} in
  result <- FindAllHandler.get_findall_status handler findall_id ;;
  ret (json_dumps (VDict result)).

Definition get_findall_results (findall_id : string)
  (_snowflake_module : option SnowflakeModule) : M string :=
  let handler := {| FindAllHandler._snowflake := _snowflake_module |} in
  result <- FindAllHandler.get_findall_results handler findall_id ;;
  ret (json_dumps (VDict result)).

Definition extend_findall (findall_id : string)
  (additional_match_limit : value)
  (_snowflake_module : option SnowflakeModule) : M string :=
  let handler := {| FindAllHandler._snowflake := _snowflake_module |} in
  result <- FindAllHandler.extend_findall handler findall_id
              additional_match_limit ;;
  ret (json_dumps (VDict result)).

Definition enrich_findall (findall_id : string) (output_schema_json : value)
  (processor : value) (_snowflake_module : option SnowflakeModule)
  : M string :=
  let handler := {| FindAllHandler._snowflake := _snowflake_module |} in
  output_schema <-
    match output_schema_json with
    | VStr s => lift (json_loads s)
    | _ => ret output_schema_json
    end ;;
  result <- FindAllHandler.enrich_findall handler findall_id output_schema
              processor ;;
  ret (json_dumps (VDict result)).

Definition cancel_findall (findall_id : string)
  (_snowflake_module : option SnowflakeModule) : M string :=
  let handler := {| FindAllHandler._snowflake := _snowflake_module |} in
  result <- FindAllHandler.cancel_findall handler findall_id ;;
  ret (json_dumps (VDict result)).

Definition wait_for_findall_completion (fuel : nat) (findall_id : string)
  (poll_interval max_wait : Z) (_snowflake_module : option SnowflakeModule)
  : M (option string) :=
  let handler := {| FindAllHandler._snowflake := _snowflake_module |} in
  result <- FindAllHandler.wait_for_completion fuel handler findall_id
              poll_interval max_wait ;;
  ret (match result with
       | Some d => Some (json_dumps (VDict d))
       | None => None
       end).

End EntryPoints.
End UDF.

(** ** Vocabulary of the statements *)

Import FindAllHandler.

(** A call of one of the six request methods of the handler. *)
Inductive operation :=
| Create (objective entity_type : string) (match_conditions : value)
    (generator : option string) (match_limit : option Z)
    (exclude_list metadata : value)
| Status (findall_id : string)
| Results (findall_id : string)
| Extend (findall_id : string) (additional_match_limit : value)
| Enrich (findall_id : string) (output_schema processor : value)
| Cancel (findall_id : string).

Definition perform (self : t) (op : operation) : M dict :=
  match op with
  | Create o e mc g ml ex md => create_findall_run self o e mc g ml ex md
  | Status i => get_findall_status self i
  | Results i => get_findall_results self i
  | Extend i n => extend_findall self i n
  | Enrich i sch p => enrich_findall self i sch p
  | Cancel i => cancel_findall self i
  end.

(** The context field a failure envelope of the call carries. *)
Definition context (op : operation) : string * value :=
  match op with
  | Create o _ _ _ _ _ _ => ("objective", VStr o)
  | Status i | Results i | Extend i _ | Enrich i _ _ | Cancel i =>
      ("findall_id", VStr i)
  end.

Definition failure (op : operation) (msg : string) : dict :=
  [("success", VBool false); ("error", VStr msg); context op].

(** The error text of a response that is not a 200. *)
Definition http_error (r : Response) : string :=
  "HTTP " ++ string_of_Z (status_code r) ++ ": " ++ text r.

Definition is_dict (v : value) : bool :=
  match v with VDict _ => true | _ => false end.

(** The body of a 200 response has the shape the call reads: it is an
    object, the nested objects the call looks into are objects when they
    are present, and the candidates can be run over and are objects. *)
Definition status_ok (d : dict) : bool :=
  match lookup "status" d with Some v => is_dict v | None => true end.

Definition candidates_ok (d : dict) : bool :=
  match lookup "candidates" d with
  | None => true
  | Some (VList l) => forallb is_dict l
  | Some (VStr s) => String.eqb s ""
  | Some (VDict c) => match c with [] => true | _ => false end
  | Some _ => false
  end.

Definition conforming (op : operation) (v : value) : bool :=
  match v with
  | VDict d =>
      match op with
      | Create _ _ _ _ _ _ _ | Status _ | Cancel _ => status_ok d
      | Extend _ _ | Enrich _ _ _ => true
      | Results _ =>
          match lookup "run" d with
          | None => candidates_ok d
          | Some (VDict run) => candidates_ok d && status_ok run
          | Some _ => false
          end
      end
  | _ => false
  end.

(** The candidate is an object whose [match_status] is the string
    "matched". *)
Definition is_matched (c : value) : bool :=
  match c with
  | VDict d => eq_str (dict_get d "match_status") "matched"
  | _ => false
  end.

(** The world after a request has been sent. *)
Definition after_send (r : Request) (w : World) : World := snd (send r w).

Definition status_request (key findall_id : string) : Request :=
  {| method := GET;
     url := BASE_URL ++ "/v1beta/findall/runs/" ++ findall_id;
     headers := [("x-api-key", key); ("Content-Type", "application/json");
                 ("parallel-beta", BETA_HEADER)];
     body := None;
     timeout := TIMEOUT |}.

Definition results_request (key findall_id : string) : Request :=
  {| method := GET;
     url := BASE_URL ++ "/v1beta/findall/runs/" ++ findall_id ++ "/result";
     headers := [("x-api-key", key); ("Content-Type", "application/json");
                 ("parallel-beta", BETA_HEADER)];
     body := None;
     timeout := TIMEOUT |}.

Definition timeout_envelope (findall_id : string) (max_wait : Z) : dict :=
  [("success", VBool false);
   ("error", VStr ("Timeout after " ++ string_of_Z max_wait ++ " seconds"));
   ("findall_id", VStr findall_id)].

(** *** Vocabulary of the polling loop *)

Section Polling.

Variables (self : t) (findall_id : string) (poll_interval max_wait : Z).

(** The world after one status poll made in [w]. *)
Definition polled (w : World) : World :=
  snd (get_findall_status self findall_id w).

(** The status poll made in [w] returns a success envelope. *)
Definition poll_succeeds (w : World) : bool :=
  match fst (get_findall_status self findall_id w) with
  | Val st => truthy (dict_get st "success")
  | Exn _ | Abort _ => false
  end.

(** The snapshot of the status poll made in [w] has a true [is_active]. *)
Definition poll_is_active (w : World) : bool :=
  match fst (get_findall_status self findall_id w) with
  | Val st => truthy (dict_get st "is_active")
  | Exn _ | Abort _ => false
  end.

(** One round of the loop that goes on: a poll, then the sleep. *)
Definition round (w : World) : World :=
  snd (time_sleep poll_interval (polled w)).

Definition rounds (k : nat) (w : World) : World := Nat.iter k round w.

(** The loop condition, read in world [w]. *)
Definition in_time (start_time : Q) (w : World) : bool :=
  Qltb (now w - start_time) (inject_Z max_wait).

(** What [k] rounds add to the log. *)
Fixpoint rounds_events (key : string) (k : nat) : list Event :=
  match k with
  | O => []
  | S k' =>
      Sent (status_request key findall_id) :: Slept poll_interval
      :: rounds_events key k'
  end.

(** The tail of the trace: nothing, the poll that ended the loop, or that
    poll and the retrieval of the results. *)
Definition trace_tail_ok (key : string) (tail : list Event) : Prop :=
  tail = []
  \/ tail = [Sent (status_request key findall_id)]
  \/ tail = [Sent (status_request key findall_id);
             Sent (results_request key findall_id)].

(** An event that changes nothing on the remote side: a sleep of
    [poll_interval] seconds, or a GET (without body) of the status or of
    the results of the job. *)
Definition read_only (e : Event) : Prop :=
  match e with
  | Slept secs => secs = poll_interval
  | Sent r =>
      method r = GET /\ body r = None
      /\ exists key, r = status_request key findall_id
                     \/ r = results_request key findall_id
  end.


End Polling.

(** [n] times the duration [q]. *)
Fixpoint times (n : nat) (q : Q) : Q :=
  match n with
  | O => 0
  | S n' => q + times n' q
  end.

(** ** Sample worlds, for the examples *)

Definition offline : Reply :=
  {| latency := 0; outcome := Exn "Connection refused" |}.

(** A finite script; past its end the network is unreachable. *)
Definition script (rs : list Reply) (n : nat) : Reply := nth n rs offline.

(** [time.sleep] on CPython 3.11 with a 64-bit clock in nanoseconds. *)
Definition cpython_sleeping (secs : Z) : exc unit :=
  if (9223372037 <=? secs)%Z then
    Exn "timestamp too large to convert to C _PyTime_t"
  else if (secs =? 9223372036)%Z then Exn "[Errno 22] Invalid argument"
  else Val tt.

Definition world_of (rs : list Reply) : World :=
  {| now := 0;
     replies := script rs;
     served := 0;
     sleeping := cpython_sleeping;
     log := [] |}.

Definition respond (secs : Q) (code : Z) (txt : string) (j : exc value)
  : Reply :=
  {| latency := secs;
     outcome := Val {| status_code := code; text := txt; json := j |} |}.

Definition fails (secs : Q) (msg : string) : Reply :=
  {| latency := secs; outcome := Exn msg |}.

(** The call is cut short by an exception that does not derive from
    [Exception]. *)
Definition interrupted (secs : Q) (name : string) : Reply :=
  {| latency := secs; outcome := Abort name |}.

Definition handler_with_key (k : string) : t :=
  {| _snowflake :=
       Some {| get_generic_secret_string :=
                 fun name =>
                   if String.eqb name "api_key" then Val k
                   else Exn ("Secret not found: " ++ name) |} |}.

Definition handler_without_module : t := {| _snowflake := None |}.

Definition handler_with_failing_secret (msg : string) : t :=
  {| _snowflake := Some {| get_generic_secret_string := fun _ => Exn msg |} |}.

(** One request, answered by a 201. *)
Definition world_created : World :=
  world_of [respond 1 201 "{}" (Val (VDict []))].

(** The one request is interrupted from the keyboard. *)
Definition world_interrupted : World :=
  world_of [interrupted 3 "KeyboardInterrupt"].

(** One request, answered by a 500. *)
Definition world_rejecting : World :=
  world_of [respond 1 500 "Internal Server Error" (Exn "")].

Definition run_body (status : string) (is_active : bool) : value :=
  VDict [("findall_id", VStr "fa_1");
         ("status", VDict [("status", VStr status);
                           ("is_active", VBool is_active);
                           ("metrics", VDict [("generated_candidates_count",
                                               VInt 3)])]);
         ("modified_at", VStr "2025-10-01T00:00:00Z")].

Definition candidate (name match_status : string) : value :=
  VDict [("name", VStr name); ("match_status", VStr match_status)].

Definition result_body (candidates : value) : value :=
  VDict [("run", run_body "completed" false); ("candidates", candidates)].

(** Two polls find the job running, the third finds it completed. *)
Definition world_completing : World :=
  world_of
    [respond 1 200 "" (Val (run_body "running" true));
     respond 1 200 "" (Val (run_body "running" true));
     respond 1 200 "" (Val (run_body "completed" false));
     respond 1 200 ""
       (Val (result_body
               (VList [candidate "Acme" "matched";
                       candidate "Bolt" "unmatched";
                       candidate "Core" "matched"])))].

(** Every poll takes 100 seconds and finds the job running. *)
Definition world_slow : World :=
  world_of
    [respond 100 200 "" (Val (run_body "running" true));
     respond 100 200 "" (Val (run_body "running" true));
     respond 100 200 "" (Val (run_body "running" true));
     respond 100 200 "" (Val (run_body "running" true))].

(** The second poll is answered by a 503. *)
Definition world_flaky : World :=
  world_of
    [respond 1 200 "" (Val (run_body "running" true));
     respond 1 503 "Service Unavailable" (Exn "");
     respond 1 200 "" (Val (run_body "completed" false))].


(** A 200 whose body has a null [candidates]. *)
Definition world_null_candidates : World :=
  world_of [respond 1 200 ""
              (Val (VDict [("run", run_body "running" true);
                           ("candidates", VNone)]))].

(** A 200 with three candidates, two of them matched. *)
Definition world_results : World :=
  world_of [respond 1 200 ""
              (Val (result_body
                      (VList [candidate "Acme" "matched";
                              candidate "Bolt" "unmatched";
                              candidate "Core" "matched"])))].

(** The candidates of a response body, as the sequence the filter runs
    over. *)
Definition candidates_of (d : dict) : list value :=
  match lookup "candidates" d with
  | Some (VList l) => l
  | _ => []
  end.

(** What [json.loads] does on the texts of the examples: an empty object,
    a null, and the beginning of an object whose key is not quoted.  The
    last line stands for the rest of its table and is not looked at. *)
Definition loads_sample (s : string) : exc value :=
  if String.eqb s "{}" then Val (VDict [])
  else if String.eqb s "null" then Val VNone
  else if String.eqb s "{revenue" then
    Exn "Expecting property name enclosed in double quotes: line 1 column 2 (char 1)"
  else Exn "Expecting value: line 1 column 1 (char 0)".

(** A [json.dumps] whose text is not looked at. *)
Definition dumps_opaque (v : value) : string := "<json>".


(** *** Vocabulary of the wire protocol *)

(** The HTTP method and the URL of a call. *)
Definition endpoint (op : operation) : Method * string :=
  match op with
  | Create _ _ _ _ _ _ _ =>
      (POST, "https://api.parallel.ai/v1beta/findall/runs")
  | Status i =>
      (GET, "https://api.parallel.ai/v1beta/findall/runs/" ++ i)
  | Results i =>
      (GET, "https://api.parallel.ai/v1beta/findall/runs/" ++ i ++ "/result")
  | Extend i _ =>
      (POST, "https://api.parallel.ai/v1beta/findall/runs/" ++ i ++ "/extend")
  | Enrich i _ _ =>
      (POST, "https://api.parallel.ai/v1beta/findall/runs/" ++ i ++ "/enrich")
  | Cancel i =>
      (POST, "https://api.parallel.ai/v1beta/findall/runs/" ++ i ++ "/cancel")
  end.

(** The headers of every request. *)
Definition auth_headers (key : string) : list (string * string) :=
  [("x-api-key", key);
   ("Content-Type", "application/json");
   ("parallel-beta", "findall-2025-09-15")].

(** The object under [status] of a response body; empty when the key is
    missing. *)
Definition status_of (d : dict) : dict :=
  match lookup "status" d with
  | Some (VDict s) => s
  | _ => []
  end.

(** [d.get(k, default)] on a dict. *)
Definition dict_get_default (d : dict) (k : string) (default : value)
  : value :=
  match lookup k d with Some v => v | None => default end.

(** A 200 whose body is an empty object. *)
Definition world_empty_object : World :=
  world_of [respond 1 200 "{}" (Val (VDict []))].

(** The object under [run] of a result body; empty when the key is
    missing. *)
Definition run_of (d : dict) : dict :=
  match lookup "run" d with
  | Some (VDict r) => r
  | _ => []
  end.

(** The first poll finds a job whose status has no [is_active]. *)
Definition world_no_flag : World :=
  world_of
    [respond 1 200 ""
       (Val (VDict [("status", VDict [("status", VStr "running")])]));
     respond 1 200 "" (Val (result_body (VList [])))].

(** The value an entry point hands to the handler: the decoded text when
    the argument is a string, the argument itself otherwise. *)
Definition decoded (json_loads : string -> exc value) (v : value)
  : exc value :=
  match v with
  | VStr s => json_loads s
  | _ => Val v
  end.

(** ** The registry of tool sets ([agent/tool_specs/__init__.py])

    The tool lists of the four modules are data; the registry is
    parameterised by them. *)

Module ToolSpecs.
Section Registry.

Variables gsuite_tools salesforce_tools perplexity_tools parallel_web_tools
  : list value.

Definition TOOL_REGISTRY : list (string * list value) :=
  [("gsuite_tools", gsuite_tools);
   ("salesforce_tools", salesforce_tools);
   ("perplexity_tools", perplexity_tools);
   ("parallel_web_tools", parallel_web_tools)].

(** [TOOL_REGISTRY[name]], when [name in TOOL_REGISTRY]. *)
Fixpoint registry_get (name : string) (reg : list (string * list value))
  : option (list value) :=
  match reg with
  | [] => None
  | (k, v) :: reg' => if String.eqb name k then Some v else registry_get name reg'
  end.

(** [repr] of a list of identifiers (no quote, no escape to write). *)
Definition repr_names (l : list string) : string :=
  "[" ++ String.concat ", " (map (fun k => "'" ++ k ++ "'") l) ++ "]".

(** The [for] loop of [get_tools], with the list built so far. *)
Fixpoint get_tools_loop (tools : list value) (tool_set_names : list string)
  : exc (list value) :=
  match tool_set_names with
  | [] => Val tools
  | name :: rest =>
      match registry_get name TOOL_REGISTRY with
      | Some set => get_tools_loop (tools ++ set) rest
      | None =>
          Exn ("Unknown tool set: " ++ name ++ ". Available: "
               ++ repr_names (map fst TOOL_REGISTRY))
      end
  end.

Definition get_tools (tool_set_names : list string) : exc (list value) :=
  get_tools_loop [] tool_set_names.

(** The tools of a name; nothing for a name that is not registered. *)
Definition tools_of (name : string) : list value :=
  match registry_get name TOOL_REGISTRY with
  | Some set => set
  | None => []
  end.

Definition registered (name : string) : bool :=
  match registry_get name TOOL_REGISTRY with
  | Some _ => true
  | None => false
  end.

End Registry.
End ToolSpecs.

(** A 200 whose body is a JSON array. *)
Definition world_array_body : World :=
  world_of [respond 1 200 "[]" (Val (VList []))].

(** A 200 whose second candidate is a string. *)
Definition world_bad_candidate : World :=
  world_of [respond 1 200 ""
              (Val (result_body
                      (VList [candidate "Acme" "matched";
                              VStr "Bolt";
                              candidate "Core" "matched"])))].

(** *** Vocabulary of the exceptions that are not caught *)

(** The call is cut short by an exception that does not derive from
    [Exception]: raised by the secret lookup, by the HTTP call, or by the
    decoding of the body of a 200. *)
Definition aborted_by (self : t) (w : World) (name : string) : Prop :=
  _get_api_key self = Abort name
  \/ exists key,
       _get_api_key self = Val key
       /\ (outcome (replies w (served w)) = Abort name
           \/ exists r,
                outcome (replies w (served w)) = Val r
                /\ status_code r = 200%Z
                /\ json r = Abort name).

(** The secret lookup raises no exception outside [Exception]. *)
Definition secret_quiet (self : t) : Prop :=
  forall name, _get_api_key self <> Abort name.

(** No HTTP call and no decoding of the run raises an exception outside
    [Exception]. *)
Definition network_quiet (w : World) : Prop :=
  forall j,
    (forall name, outcome (replies w j) <> Abort name)
    /\ (forall r name, outcome (replies w j) = Val r -> json r <> Abort name).

(** The reply raises no exception outside [Exception], neither in the
    call nor in the decoding. *)
Definition reply_quiet (r : Reply) : bool :=
  match outcome r with
  | Val r' => match json r' with Abort _ => false | _ => true end
  | Exn _ => true
  | Abort _ => false
  end.

(** [time.sleep(secs)] returns on the platform of [w]. *)
Definition sleep_returns (w : World) (secs : Z) : Prop :=
  (0 <= secs)%Z /\ sleeping w secs = Val tt.

(** What [wait_for_completion] gives when it ends with
    [return self.get_findall_results(findall_id)]. *)
Definition returned (e : exc dict) : exc (option dict) :=
  match e with
  | Val d => Val (Some d)
  | Exn msg => Exn msg
  | Abort name => Abort name
  end.

(** What an entry point gives from the outcome of the handler method:
    the text of its envelope. *)
Definition text_of (json_dumps : value -> string) (e : exc dict)
  : exc string :=
  match e with
  | Val d => Val (json_dumps (VDict d))
  | Exn msg => Exn msg
  | Abort name => Abort name
  end.

(** * Properties *)

(** ** The six request methods *)

Ltac unfold_ops :=
  unfold perform, create_findall_run, get_findall_status,
    get_findall_results, extend_findall, enrich_findall, cancel_findall,
    try_except, bind, lift, ret, raise, requests_get, requests_post, send,
    _get_headers, failure, context, http_error in *.

Ltac break_match :=
  match goal with
  | |- context [match ?x with _ => _ end] =>
      lazymatch x with
      | context [match _ with _ => _ end] => fail
      | _ => destruct x eqn:?
      end
  end.

Lemma perform_secret_raises (self : t) (op : operation) (w : World) msg :
  _get_api_key self = Exn msg ->
  perform self op w = (Val (failure op msg), w).
Proof.
  intros H. destruct op; unfold_ops; rewrite H; reflexivity.
Qed.

Lemma perform_transport_raises self op w key msg :
  _get_api_key self = Val key ->
  outcome (replies w (served w)) = Exn msg ->
  fst (perform self op w) = Val (failure op msg).
Proof.
  intros H Ho. destruct op; unfold_ops; rewrite H; cbn; rewrite Ho; reflexivity.
Qed.

Lemma perform_not_200 self op w key r :
  _get_api_key self = Val key ->
  outcome (replies w (served w)) = Val r ->
  status_code r <> 200%Z ->
  fst (perform self op w) = Val (failure op (http_error r)).
Proof.
  intros H Ho Hs. apply Z.eqb_neq in Hs.
  destruct op; unfold_ops; rewrite H; cbn; rewrite Ho, Hs; reflexivity.
Qed.

Lemma perform_json_raises self op w key r msg :
  _get_api_key self = Val key ->
  outcome (replies w (served w)) = Val r ->
  status_code r = 200%Z ->
  json r = Exn msg ->
  fst (perform self op w) = Val (failure op msg).
Proof.
  intros H Ho Hs Hj. apply Z.eqb_eq in Hs.
  destruct op; unfold_ops; rewrite H; cbn; rewrite Ho, Hs, Hj; reflexivity.
Qed.

Lemma matched_of_objects cs :
  forallb is_dict cs = true -> matched_of cs = Val (filter is_matched cs).
Proof.
  induction cs as [|c cs IH]; cbn; [reflexivity|].
  intros H. apply andb_true_iff in H as [Hc Hcs].
  destruct c; try discriminate. cbn. rewrite (IH Hcs).
  unfold dict_get. destruct (lookup "match_status" d); reflexivity.
Qed.

Lemma matched_of_raises cs :
  forallb is_dict cs = false -> exists msg, matched_of cs = Exn msg.
Proof.
  induction cs as [|c cs IH]; cbn; [discriminate|].
  intros H. apply andb_false_iff in H.
  destruct c; cbn; eauto.
  destruct H as [H|H]; [discriminate|].
  destruct (IH H) as [msg ->]. eauto.
Qed.

Lemma iterate_matched_conforming d :
  candidates_ok d = true ->
  exists cs n,
    iterate (match lookup "candidates" d with Some x => x | None => VList [] end) = Val cs
    /\ forallb is_dict cs = true
    /\ len (match lookup "candidates" d with Some x => x | None => VList [] end) = Val n.
Proof.
  unfold candidates_ok. destruct (lookup "candidates" d) as [[| | | |s|l|c]|]; try discriminate; cbn; intros H.
  - apply String.eqb_eq in H; subst. cbn. eauto.
  - eauto.
  - destruct c; try discriminate. cbn. eauto.
  - eauto.
Qed.

Lemma perform_200_conforming self op w key r v :
  _get_api_key self = Val key ->
  outcome (replies w (served w)) = Val r ->
  status_code r = 200%Z ->
  json r = Val v ->
  conforming op v = true ->
  exists d, fst (perform self op w) = Val d
            /\ lookup "success" d = Some (VBool true).
Proof.
  intros H Ho Hs Hj Hc. apply Z.eqb_eq in Hs.
  destruct v; try discriminate.
  destruct op; unfold_ops; rewrite H; cbn; rewrite Ho, Hs, Hj; cbn;
    cbn in Hc; unfold status_ok in Hc.
  1,2,6: destruct (lookup "status" d) as [[]|]; try discriminate; cbn;
      eexists; split; reflexivity.
  2,3: eexists; split; reflexivity.
  assert (Hcand : candidates_ok d = true /\
          status_ok (match lookup "run" d with Some (VDict x) => x | _ => [] end) = true
          /\ exists run, match lookup "run" d with Some x => x | None => VDict [] end = VDict run /\ status_ok run = true).
  { destruct (lookup "run" d) as [[]|]; try discriminate.
    - apply andb_true_iff in Hc as [? ?]. eauto.
    - cbn. eauto. }
  destruct Hcand as (Hcand & _ & run & -> & Hrun).
  destruct (iterate_matched_conforming d Hcand) as (cs & n & -> & Hcs & ->).
  cbn. rewrite (matched_of_objects cs Hcs). cbn.
  unfold status_ok in Hrun.
  destruct (lookup "status" run) as [[]|]; try discriminate; cbn;
      eexists; split; reflexivity.
Qed.

Lemma iterate_matched_nonconforming d :
  candidates_ok d = false ->
  let c := match lookup "candidates" d with Some x => x | None => VList [] end in
  (exists msg, iterate c = Exn msg)
  \/ (exists cs msg, iterate c = Val cs /\ matched_of cs = Exn msg).
Proof.
  unfold candidates_ok.
  destruct (lookup "candidates" d) as [[| | | |s|l|c]|]; try discriminate;
    cbn; intros H; eauto.
  - right. destruct s as [|a s]; [discriminate|]. cbn.
    eexists _, _. split; reflexivity.
  - right. destruct (matched_of_raises l H) as [msg Hm].
    exists l, msg. split; [reflexivity|assumption].
  - right. destruct c as [|[k v] c]; [discriminate|]. cbn.
    eexists _, _. split; reflexivity.
Qed.

Lemma perform_200_nonconforming self op w key r v :
  _get_api_key self = Val key ->
  outcome (replies w (served w)) = Val r ->
  status_code r = 200%Z ->
  json r = Val v ->
  conforming op v = false ->
  exists msg, fst (perform self op w) = Val (failure op msg).
Proof.
  intros H Ho Hs Hj Hc. apply Z.eqb_eq in Hs.
  destruct op; unfold_ops; rewrite H; cbn; rewrite Ho, Hs, Hj; cbn.
  all: destruct v; cbn; eauto; cbn in Hc; unfold status_ok in Hc.
  1,2,6: destruct (lookup "status" d) as [[]|]; try discriminate; cbn; eauto.
  2,3: discriminate.
  destruct (candidates_ok d) eqn:Hcand.
  - destruct (iterate_matched_conforming d Hcand) as (cs & n & -> & Hcs & ->).
    rewrite (matched_of_objects cs Hcs).
    destruct (lookup "run" d) as [[]|]; try discriminate; cbn; eauto.
    cbn in Hc.
    destruct (lookup "status" d0) as [[]|]; try discriminate; cbn; eauto.
  - destruct (iterate_matched_nonconforming d Hcand) as [[msg ->]|(cs & msg & -> & ->)];
      destruct (lookup "run" d) as [[]|]; cbn; eauto.
Qed.

(** Every call returns an envelope: a failure envelope, or a success
    envelope, and the latter only on a 200 whose body can be read. *)
Lemma perform_secret_aborts (self : t) (op : operation) (w : World) name :
  _get_api_key self = Abort name ->
  perform self op w = (Abort name, w).
Proof.
  intros H. destruct op; unfold_ops; rewrite H; reflexivity.
Qed.

Lemma perform_transport_aborts self op w key name :
  _get_api_key self = Val key ->
  outcome (replies w (served w)) = Abort name ->
  fst (perform self op w) = Abort name.
Proof.
  intros H Ho. destruct op; unfold_ops; rewrite H; cbn; rewrite Ho; reflexivity.
Qed.

Lemma perform_json_aborts self op w key r name :
  _get_api_key self = Val key ->
  outcome (replies w (served w)) = Val r ->
  status_code r = 200%Z ->
  json r = Abort name ->
  fst (perform self op w) = Abort name.
Proof.
  intros H Ho Hs Hj. apply Z.eqb_eq in Hs.
  destruct op; unfold_ops; rewrite H; cbn; rewrite Ho, Hs, Hj; reflexivity.
Qed.

(** Every call returns an envelope (a failure envelope, or a success
    envelope, and the latter only on a 200 whose body can be read), unless
    an exception that does not derive from [Exception] cuts it short. *)
Lemma perform_returns self op w :
  (exists d,
     fst (perform self op w) = Val d
     /\ ((exists msg, d = failure op msg)
         \/ (lookup "success" d = Some (VBool true)
             /\ exists key r v,
                 _get_api_key self = Val key
                 /\ outcome (replies w (served w)) = Val r
                 /\ status_code r = 200%Z
                 /\ json r = Val v
                 /\ conforming op v = true)))
  \/ (exists name,
        fst (perform self op w) = Abort name /\ aborted_by self w name).
Proof.
  unfold aborted_by.
  destruct (_get_api_key self) as [key|msg|name] eqn:Hk.
  2:{ left. rewrite (perform_secret_raises self op w msg Hk). cbn. eauto. }
  2:{ right. rewrite (perform_secret_aborts self op w name Hk). cbn. eauto. }
  destruct (outcome (replies w (served w))) as [r|msg|name] eqn:Ho.
  2:{ left. rewrite (perform_transport_raises self op w key msg Hk Ho). eauto. }
  2:{ right. rewrite (perform_transport_aborts self op w key name Hk Ho).
      exists name. split; [reflexivity|]. right. exists key. auto. }
  destruct (Z.eq_dec (status_code r) 200) as [Hs|Hs].
  2:{ left. rewrite (perform_not_200 self op w key r Hk Ho Hs). eauto. }
  destruct (json r) as [v|msg|name] eqn:Hj.
  2:{ left. rewrite (perform_json_raises self op w key r msg Hk Ho Hs Hj).
      eauto. }
  2:{ right. rewrite (perform_json_aborts self op w key r name Hk Ho Hs Hj).
      exists name. split; [reflexivity|]. right. exists key.
      split; [reflexivity|]. right. exists r. auto. }
  left. destruct (conforming op v) eqn:Hc.
  - destruct (perform_200_conforming self op w key r v Hk Ho Hs Hj Hc)
      as (d & Hd & Hsucc).
    exists d. split; [assumption|]. right. split; [assumption|].
    exists key, r, v. auto.
  - destruct (perform_200_nonconforming self op w key r v Hk Ho Hs Hj Hc)
      as (msg & Hd).
    rewrite Hd. eauto.
Qed.

(** A call lets out no exception that derives from [Exception]. *)
Lemma perform_catches self op w msg : fst (perform self op w) <> Exn msg.
Proof.
  destruct (perform_returns self op w) as [(d & -> & _)|(name & -> & _)];
    discriminate.
Qed.

(** When nothing raises outside [Exception], a call returns an envelope. *)
Lemma perform_returns_quiet self op w :
  secret_quiet self ->
  network_quiet w ->
  exists d, fst (perform self op w) = Val d.
Proof.
  intros Hs Hn.
  destruct (perform_returns self op w) as [(d & Hd & _)|(name & _ & Hab)];
    [eauto|].
  exfalso. destruct (Hn (served w)) as [Ho Hj].
  destruct Hab as [Hk|(key & _ & [Ha|(r & Hr & _ & Ha)])].
  - exact (Hs name Hk).
  - exact (Ho name Ha).
  - exact (Hj r name Hr Ha).
Qed.

(** What a call does to the world: nothing when the secret lookup raises,
    one request otherwise. *)
Lemma status_world self findall_id w key :
  _get_api_key self = Val key ->
  snd (get_findall_status self findall_id w)
  = after_send (status_request key findall_id) w.
Proof.
  intros H. unfold_ops. rewrite H. cbn.
  repeat (break_match; cbn in *; try reflexivity).
Qed.

Lemma results_world self findall_id w key :
  _get_api_key self = Val key ->
  snd (get_findall_results self findall_id w)
  = after_send (results_request key findall_id) w.
Proof.
  intros H. unfold_ops. rewrite H. cbn.
  repeat (break_match; cbn in *; try reflexivity).
Qed.

Lemma perform_world_no_key self op w :
  (forall key, _get_api_key self <> Val key) ->
  snd (perform self op w) = w.
Proof.
  intros H. destruct (_get_api_key self) as [key|msg|name] eqn:Hk.
  - destruct (H key eq_refl).
  - rewrite (perform_secret_raises self op w msg Hk). reflexivity.
  - rewrite (perform_secret_aborts self op w name Hk). reflexivity.
Qed.

(** ** The polling loop *)

Section PollingFacts.

Variables (self : t) (findall_id : string) (poll_interval max_wait : Z).

#[local] Abbreviation polled := (polled self findall_id).
#[local] Abbreviation poll_succeeds := (poll_succeeds self findall_id).
#[local] Abbreviation poll_is_active := (poll_is_active self findall_id).
#[local] Abbreviation round := (round self findall_id poll_interval).
#[local] Abbreviation rounds := (rounds self findall_id poll_interval).
#[local] Abbreviation in_time := (in_time max_wait).
#[local] Abbreviation wait_loop fuel :=
  (wait_loop fuel self findall_id poll_interval max_wait).

(** A poll returns an envelope or is cut short. *)
Lemma poll_cases w :
  (exists d, get_findall_status self findall_id w = (Val d, polled w))
  \/ (exists name,
        get_findall_status self findall_id w = (Abort name, polled w)).
Proof.
  unfold polled.
  destruct (perform_returns self (Status findall_id) w)
    as [(d & Hd & _)|(name & Hd & _)]; cbn in Hd;
    destruct (get_findall_status self findall_id w) as [e w'];
    cbn in *; subst e; eauto.
Qed.

Lemma results_cases w :
  (exists d, fst (get_findall_results self findall_id w) = Val d)
  \/ (exists name, fst (get_findall_results self findall_id w) = Abort name).
Proof.
  destruct (perform_returns self (Results findall_id) w)
    as [(d & Hd & _)|(name & Hd & _)]; cbn in Hd; eauto.
Qed.

Lemma wait_loop_timeout fuel start w :
  in_time start w = false ->
  wait_loop (S fuel) start w
  = (Val (Some (timeout_envelope findall_id max_wait)), w).
Proof.
  intros H. cbn. unfold bind, time_time. unfold in_time in H.
  rewrite H. reflexivity.
Qed.

Lemma wait_loop_failed fuel start w d :
  in_time start w = true ->
  get_findall_status self findall_id w = (Val d, polled w) ->
  truthy (dict_get d "success") = false ->
  wait_loop (S fuel) start w = (Val (Some d), polled w).
Proof.
  intros H Hp Hs. cbn. unfold bind at 1. unfold time_time.
  unfold in_time in H. rewrite H.
  unfold bind at 1. rewrite Hp. rewrite Hs. reflexivity.
Qed.

Lemma wait_loop_aborted fuel start w name :
  in_time start w = true ->
  get_findall_status self findall_id w = (Abort name, polled w) ->
  wait_loop (S fuel) start w = (Abort name, polled w).
Proof.
  intros H Hp. cbn. unfold bind at 1. unfold time_time.
  unfold in_time in H. rewrite H.
  unfold bind at 1. rewrite Hp. reflexivity.
Qed.

(** The loop ends with what the retrieval of the results gives. *)
Lemma wait_loop_finished fuel start w d :
  in_time start w = true ->
  get_findall_status self findall_id w = (Val d, polled w) ->
  truthy (dict_get d "success") = true ->
  truthy (dict_get d "is_active") = false ->
  wait_loop (S fuel) start w
  = (returned (fst (get_findall_results self findall_id (polled w))),
     snd (get_findall_results self findall_id (polled w))).
Proof.
  intros H Hp Hs Ha.
  cbn. unfold bind at 1. unfold time_time.
  unfold in_time in H. rewrite H.
  unfold bind at 1. rewrite Hp. rewrite Hs, Ha. cbn.
  unfold bind, ret.
  destruct (get_findall_results self findall_id (polled w)) as [[r|e|e] w'];
    reflexivity.
Qed.

(** After a poll that finds the job active the loop sleeps; it goes round
    when the sleep returns and lets out what the sleep raises. *)
Lemma wait_loop_active fuel start w d :
  in_time start w = true ->
  get_findall_status self findall_id w = (Val d, polled w) ->
  truthy (dict_get d "success") = true ->
  truthy (dict_get d "is_active") = true ->
  wait_loop (S fuel) start w
  = match fst (time_sleep poll_interval (polled w)) with
    | Val _ => wait_loop fuel start (round w)
    | Exn e => (Exn e, polled w)
    | Abort e => (Abort e, polled w)
    end.
Proof.
  intros H Hp Hs Ha.
  cbn. unfold bind at 1. unfold time_time.
  unfold in_time in H. rewrite H.
  unfold bind at 1. rewrite Hp. rewrite Hs, Ha. cbn.
  unfold bind at 1. unfold round, time_sleep.
  destruct (poll_interval <? 0)%Z; [reflexivity|].
  destruct (sleeping (polled w) poll_interval); reflexivity.
Qed.

Lemma polled_sleeping w : sleeping (polled w) = sleeping w.
Proof.
  unfold polled.
  destruct (_get_api_key self) as [key|msg|name] eqn:Hk.
  - rewrite (status_world self findall_id w key Hk). reflexivity.
  - pose proof (perform_secret_raises self (Status findall_id) w msg Hk) as H.
    cbn in H. rewrite H. reflexivity.
  - pose proof (perform_secret_aborts self (Status findall_id) w name Hk) as H.
    cbn in H. rewrite H. reflexivity.
Qed.

Lemma time_sleep_returns w :
  sleep_returns w poll_interval ->
  fst (time_sleep poll_interval (polled w)) = Val tt.
Proof.
  intros [Hpi Hs]. apply Z.ltb_ge in Hpi. unfold time_sleep.
  rewrite Hpi, polled_sleeping, Hs. reflexivity.
Qed.

(** When the sleep raises, nothing is slept and nothing is logged. *)
Lemma round_refused w :
  (forall u, fst (time_sleep poll_interval (polled w)) <> Val u) ->
  round w = polled w.
Proof.
  unfold round, time_sleep. intros H.
  destruct (poll_interval <? 0)%Z; [reflexivity|].
  destruct (sleeping (polled w) poll_interval) as [u| |]; try reflexivity.
  destruct (H tt). reflexivity.
Qed.

Lemma round_sleeping w : sleeping (round w) = sleeping w.
Proof.
  unfold round, time_sleep.
  destruct (poll_interval <? 0)%Z; [apply polled_sleeping|].
  destruct (sleeping (polled w) poll_interval); cbn; apply polled_sleeping.
Qed.

Lemma round_sleep_returns w :
  sleep_returns w poll_interval -> sleep_returns (round w) poll_interval.
Proof. unfold sleep_returns. rewrite round_sleeping. auto. Qed.

Lemma wait_loop_continue fuel start w d :
  sleep_returns w poll_interval ->
  in_time start w = true ->
  get_findall_status self findall_id w = (Val d, polled w) ->
  truthy (dict_get d "success") = true ->
  truthy (dict_get d "is_active") = true ->
  wait_loop (S fuel) start w = wait_loop fuel start (round w).
Proof.
  intros Hsl H Hp Hs Ha.
  rewrite (wait_loop_active fuel start w d H Hp Hs Ha).
  rewrite (time_sleep_returns w Hsl). reflexivity.
Qed.

Lemma poll_succeeds_eq w d :
  get_findall_status self findall_id w = (Val d, polled w) ->
  poll_succeeds w = truthy (dict_get d "success").
Proof. intros H. unfold poll_succeeds. rewrite H. reflexivity. Qed.

Lemma poll_is_active_eq w d :
  get_findall_status self findall_id w = (Val d, polled w) ->
  poll_is_active w = truthy (dict_get d "is_active").
Proof. intros H. unfold poll_is_active. rewrite H. reflexivity. Qed.

(** A poll that succeeds has returned an envelope. *)
Lemma poll_succeeds_returns w :
  poll_succeeds w = true ->
  exists d,
    get_findall_status self findall_id w = (Val d, polled w)
    /\ truthy (dict_get d "success") = true.
Proof.
  intros H. destruct (poll_cases w) as [[d Hd]|[name Hd]].
  - exists d. split; [exact Hd|]. rewrite <- (poll_succeeds_eq w d Hd). exact H.
  - unfold poll_succeeds in H. rewrite Hd in H. discriminate.
Qed.

Lemma rounds_succ k w : rounds (S k) w = rounds k (round w).
Proof. unfold rounds. apply Nat.iter_succ_r. Qed.

(** While the polls succeed with a true [is_active], the time is not up
    and the sleep returns, the loop goes round. *)
Lemma wait_loop_rounds k :
  forall fuel start w,
    sleep_returns w poll_interval ->
    (forall i, (i < k)%nat ->
       in_time start (rounds i w) = true
       /\ poll_succeeds (rounds i w) = true
       /\ poll_is_active (rounds i w) = true) ->
    wait_loop (k + fuel) start w = wait_loop fuel start (rounds k w).
Proof.
  induction k as [|k IH]; intros fuel start w Hsl Hk; [reflexivity|].
  destruct (Hk 0%nat ltac:(lia)) as (Ht & Hs & Ha). cbn in Ht, Hs, Ha.
  destruct (poll_succeeds_returns w Hs) as (d & Hd & Hs').
  rewrite (poll_is_active_eq w d Hd) in Ha.
  change (S k + fuel)%nat with (S (k + fuel)).
  rewrite (wait_loop_continue (k + fuel) start w d Hsl Ht Hd Hs' Ha).
  rewrite rounds_succ. apply IH; [apply round_sleep_returns; assumption|].
  intros i Hi. rewrite <- rounds_succ. apply Hk. lia.
Qed.

(** The clock and the script after a poll and after a round. *)
Lemma polled_replies w : replies (polled w) = replies w.
Proof.
  unfold polled.
  destruct (_get_api_key self) as [key|msg|name] eqn:Hk.
  - rewrite (status_world self findall_id w key Hk). reflexivity.
  - pose proof (perform_secret_raises self (Status findall_id) w msg Hk) as H.
    cbn in H. rewrite H. reflexivity.
  - pose proof (perform_secret_aborts self (Status findall_id) w name Hk) as H.
    cbn in H. rewrite H. reflexivity.
Qed.

Lemma polled_clock w :
  0 <= latency (replies w (served w)) -> now w <= now (polled w).
Proof.
  intros Hl. unfold polled.
  destruct (_get_api_key self) as [key|msg|name] eqn:Hk.
  - rewrite (status_world self findall_id w key Hk). cbn. lra.
  - pose proof (perform_secret_raises self (Status findall_id) w msg Hk) as H.
    cbn in H. rewrite H. cbn. lra.
  - pose proof (perform_secret_aborts self (Status findall_id) w name Hk) as H.
    cbn in H. rewrite H. cbn. lra.
Qed.

Lemma round_replies w : replies (round w) = replies (polled w).
Proof.
  unfold round, time_sleep.
  destruct (poll_interval <? 0)%Z; [reflexivity|].
  destruct (sleeping (polled w) poll_interval); reflexivity.
Qed.


Lemma in_time_true start w :
  in_time start w = true -> now w - start < inject_Z max_wait.
Proof.
  unfold in_time, Qltb. intros H. apply negb_true_iff in H.
  apply Qnot_le_lt. intros Hle. apply Qle_bool_iff in Hle. congruence.
Qed.

Lemma in_time_false start w :
  in_time start w = false -> inject_Z max_wait <= now w - start.
Proof.
  unfold in_time, Qltb. intros H. apply negb_false_iff in H.
  apply Qle_bool_iff. exact H.
Qed.




Lemma times_inject n z : times n (inject_Z z) == inject_Z (Z.of_nat n * z).
Proof.
  induction n as [|n IH].
  - cbn. reflexivity.
  - cbn [times]. rewrite IH, <- inject_Z_plus.
    replace (Z.of_nat (S n) * z)%Z with (z + Z.of_nat n * z)%Z by lia.
    reflexivity.
Qed.

Lemma enough_fuel_budget :
  (0 < poll_interval)%Z ->
  inject_Z max_wait
  <= times (S (Z.to_nat (max_wait / poll_interval))) (inject_Z poll_interval).
Proof.
  intros Hpi. rewrite times_inject. rewrite <- Zle_Qle.
  pose proof (Z.mul_succ_div_gt max_wait poll_interval Hpi) as Hd.
  set (q := (max_wait / poll_interval)%Z) in *.
  assert (Hn : Z.of_nat (S (Z.to_nat q)) = (Z.max 0 q + 1)%Z) by lia.
  rewrite Hn. nia.
Qed.

(** The log after a poll and after [k] rounds. *)
Lemma polled_log w key :
  _get_api_key self = Val key ->
  log (polled w) = (log w ++ [Sent (status_request key findall_id)])%list.
Proof.
  intros Hk. unfold polled.
  rewrite (status_world self findall_id w key Hk). reflexivity.
Qed.

Lemma polled_no_key w :
  (forall key, _get_api_key self <> Val key) -> polled w = w.
Proof.
  intros Hk. unfold polled.
  apply (perform_world_no_key self (Status findall_id) w Hk).
Qed.

Lemma polled_log_no_key w msg :
  _get_api_key self = Exn msg -> polled w = w.
Proof.
  intros Hk. apply polled_no_key. intros key. rewrite Hk. discriminate.
Qed.

Lemma round_log w key :
  _get_api_key self = Val key ->
  sleep_returns w poll_interval ->
  log (round w)
  = (log w ++ [Sent (status_request key findall_id); Slept poll_interval])%list.
Proof.
  intros Hk [Hpi Hs]. apply Z.ltb_ge in Hpi.
  unfold round, time_sleep. rewrite Hpi, polled_sleeping, Hs. cbn.
  rewrite (polled_log w key Hk), <- app_assoc. reflexivity.
Qed.

Lemma rounds_log k :
  forall w key,
    _get_api_key self = Val key ->
    sleep_returns w poll_interval ->
    log (rounds k w)
    = (log w ++ rounds_events findall_id poll_interval key k)%list.
Proof.
  induction k as [|k IH]; intros w key Hk Hpi.
  - cbn. rewrite app_nil_r. reflexivity.
  - rewrite rounds_succ,
      (IH (round w) key Hk (round_sleep_returns w Hpi)),
      (round_log w key Hk Hpi).
    rewrite <- app_assoc. reflexivity.
Qed.


(** What one sleep adds to the log: itself when it returns, nothing when
    it raises. *)
Lemma round_log_cases w :
  (exists u, fst (time_sleep poll_interval (polled w)) = Val u
             /\ log (round w) = (log (polled w) ++ [Slept poll_interval])%list)
  \/ ((forall u, fst (time_sleep poll_interval (polled w)) <> Val u)
      /\ round w = polled w).
Proof.
  unfold round, time_sleep.
  destruct (poll_interval <? 0)%Z.
  - right. split; [discriminate|reflexivity].
  - destruct (sleeping (polled w) poll_interval) as [u| |].
    + left. exists tt. split; reflexivity.
    + right. split; [discriminate|reflexivity].
    + right. split; [discriminate|reflexivity].
Qed.

Lemma wait_loop_trace key :
  _get_api_key self = Val key ->
  forall fuel start w,
  exists k tail,
    log (snd (wait_loop fuel start w))
    = (log w ++ rounds_events findall_id poll_interval key k ++ tail)%list
    /\ trace_tail_ok findall_id key tail.
Proof.
  intros Hk. unfold trace_tail_ok.
  induction fuel as [|fuel IH]; intros start w.
  - exists 0%nat, []. cbn. rewrite app_nil_r. auto.
  - destruct (in_time start w) eqn:Ht.
    2:{ rewrite (wait_loop_timeout fuel start w Ht).
        exists 0%nat, []. cbn. rewrite app_nil_r. auto. }
    destruct (poll_cases w) as [[d Hd]|[name Hd]].
    2:{ rewrite (wait_loop_aborted fuel start w name Ht Hd).
        exists 0%nat, [Sent (status_request key findall_id)]. cbn.
        rewrite (polled_log w key Hk). auto. }
    destruct (truthy (dict_get d "success")) eqn:Hs.
    2:{ rewrite (wait_loop_failed fuel start w d Ht Hd Hs).
        exists 0%nat, [Sent (status_request key findall_id)]. cbn.
        rewrite (polled_log w key Hk). auto. }
    destruct (truthy (dict_get d "is_active")) eqn:Ha.
    2:{ rewrite (wait_loop_finished fuel start w d Ht Hd Hs Ha).
        exists 0%nat, [Sent (status_request key findall_id);
                       Sent (results_request key findall_id)].
        cbn [snd rounds_events app].
        rewrite (results_world self findall_id (polled w) key Hk).
        cbn. rewrite (polled_log w key Hk), <- app_assoc. auto. }
    rewrite (wait_loop_active fuel start w d Ht Hd Hs Ha).
    destruct (round_log_cases w) as [(u & Hu & Hlog)|[Hno Hround]].
    + rewrite Hu.
      destruct (IH start (round w)) as (k & tail & Hl & Htail).
      exists (S k), tail. split; [|assumption].
      rewrite Hl, Hlog, (polled_log w key Hk), <- !app_assoc. reflexivity.
    + exists 0%nat, [Sent (status_request key findall_id)].
      split; [|auto].
      destruct (fst (time_sleep poll_interval (polled w))) as [u| |] eqn:E;
        [destruct (Hno u eq_refl)| |];
        cbn; rewrite (polled_log w key Hk); reflexivity.
Qed.

Lemma wait_loop_no_key :
  (forall key, _get_api_key self <> Val key) ->
  forall fuel start w, snd (wait_loop fuel start w) = w.
Proof.
  intros Hk fuel start w. destruct fuel as [|fuel]; [reflexivity|].
  destruct (in_time start w) eqn:Ht.
  2:{ rewrite (wait_loop_timeout fuel start w Ht). reflexivity. }
  pose proof (polled_no_key w Hk) as Hw.
  destruct (_get_api_key self) as [key|msg|name] eqn:E.
  - destruct (Hk key eq_refl).
  - pose proof (perform_secret_raises self (Status findall_id) w msg E) as H.
    cbn in H.
    rewrite (wait_loop_failed fuel start w (failure (Status findall_id) msg)
               Ht).
    + exact Hw.
    + rewrite Hw. exact H.
    + reflexivity.
  - pose proof (perform_secret_aborts self (Status findall_id) w name E) as H.
    cbn in H.
    rewrite (wait_loop_aborted fuel start w name Ht).
    + exact Hw.
    + rewrite Hw. exact H.
Qed.

Lemma wait_loop_trace_no_key msg :
  _get_api_key self = Exn msg ->
  forall fuel start w, snd (wait_loop fuel start w) = w.
Proof.
  intros Hk. apply wait_loop_no_key. intros key. rewrite Hk. discriminate.
Qed.

End PollingFacts.

Lemma perform_aborts_iff self op w name :
  fst (perform self op w) = Abort name <-> aborted_by self w name.
Proof.
  split.
  - intros H.
    destruct (perform_returns self op w) as [(d & Hd & _)|(n & Hn & Hab)].
    + rewrite Hd in H. discriminate.
    + rewrite Hn in H. injection H as ->. exact Hab.
  - intros [Hk|(key & Hk & [Ho|(r & Ho & Hs & Hj)])].
    + rewrite (perform_secret_aborts self op w name Hk). reflexivity.
    + apply (perform_transport_aborts self op w key name Hk Ho).
    + apply (perform_json_aborts self op w key r name Hk Ho Hs Hj).
Qed.

(** ** The claims about the request methods *)

(** C9, as the code has it.  Each of the six public methods lets out no
    exception that derives from [Exception]: one raised by the secret
    lookup (in particular the RuntimeError of a handler built without the
    snowflake module), by the HTTP call or by the decoding of the body
    becomes the failure envelope
    [{success: False, error: str(e), <context>}], and the method returns a
    dict.  An exception that does not derive from [Exception]
    (KeyboardInterrupt, SystemExit) is not caught by [except Exception]:
    the method lets it out, and that is the only way it does not return a
    dict. *)
Theorem methods_never_raise (self : t) (op : operation) (w : World) :
  (forall msg, fst (perform self op w) <> Exn msg)
  /\ ((exists d, fst (perform self op w) = Val d)
      \/ (exists name, fst (perform self op w) = Abort name))
  /\ (_snowflake self = None ->
      perform self op w
      = (Val (failure op "Snowflake module not initialized"), w))
  /\ (forall msg, _get_api_key self = Exn msg ->
      perform self op w = (Val (failure op msg), w))
  /\ (forall key msg,
      _get_api_key self = Val key ->
      outcome (replies w (served w)) = Exn msg ->
      fst (perform self op w) = Val (failure op msg))
  /\ (forall key r msg,
      _get_api_key self = Val key ->
      outcome (replies w (served w)) = Val r ->
      status_code r = 200%Z ->
      json r = Exn msg ->
      fst (perform self op w) = Val (failure op msg))
  /\ (forall name,
      fst (perform self op w) = Abort name <-> aborted_by self w name).
Proof.
  split; [|split; [|split; [|split; [|split; [|split]]]]].
  - intros msg. apply perform_catches.
  - destruct (perform_returns self op w) as [(d & Hd & _)|(name & Hd & _)];
      eauto.
  - intros Hn. apply perform_secret_raises.
    unfold _get_api_key. rewrite Hn. reflexivity.
  - intros msg. apply perform_secret_raises.
  - intros key msg. apply perform_transport_raises.
  - intros key r msg. apply perform_json_raises.
  - intros name. apply perform_aborts_iff.
Qed.

Lemma methods_never_raise_witness :
  perform handler_without_module (Cancel "fa_1") (world_of [])
  = (Val [("success", VBool false);
          ("error", VStr "Snowflake module not initialized");
          ("findall_id", VStr "fa_1")], world_of [])
  /\ fst (perform (handler_with_key "k") (Extend "fa_1" (VInt 5))
            (world_of [fails 120 "Read timed out. (read timeout=120)"]))
     = Val [("success", VBool false);
            ("error", VStr "Read timed out. (read timeout=120)");
            ("findall_id", VStr "fa_1")]
  /\ fst (perform (handler_with_key "k") (Status "fa_1")
            (world_of [respond 1 200 "<html>"
                         (Exn "Expecting value: line 1 column 1 (char 0)")]))
     = Val [("success", VBool false);
            ("error", VStr "Expecting value: line 1 column 1 (char 0)");
            ("findall_id", VStr "fa_1")]
  /\ perform (handler_with_failing_secret "Secret api_key is not bound")
       (Results "fa_1") (world_of [])
     = (Val [("success", VBool false);
             ("error", VStr "Secret api_key is not bound");
             ("findall_id", VStr "fa_1")], world_of [])
  /\ fst (perform (handler_with_key "k") (Cancel "fa_1") world_interrupted)
     = Abort "KeyboardInterrupt".
Proof.
  split; [|split; [|split; [|split]]].
  - apply (proj1 (proj2 (proj2 (methods_never_raise handler_without_module
                                  (Cancel "fa_1") (world_of []))))).
    reflexivity.
  - apply (proj1 (proj2 (proj2 (proj2 (proj2
             (methods_never_raise (handler_with_key "k")
                (Extend "fa_1" (VInt 5))
                (world_of [fails 120 "Read timed out. (read timeout=120)"]))))))
             "k").
    + reflexivity.
    + reflexivity.
  - eapply (proj1 (proj2 (proj2 (proj2 (proj2 (proj2
             (methods_never_raise (handler_with_key "k") (Status "fa_1")
                (world_of [respond 1 200 "<html>"
                   (Exn "Expecting value: line 1 column 1 (char 0)")])))))))
             "k").
    + reflexivity.
    + reflexivity.
    + reflexivity.
    + reflexivity.
  - apply (proj1 (proj2 (proj2 (proj2
             (methods_never_raise
                (handler_with_failing_secret "Secret api_key is not bound")
                (Results "fa_1") (world_of [])))))).
    reflexivity.
  - apply (proj2 (proj2 (proj2 (proj2 (proj2 (proj2
             (methods_never_raise (handler_with_key "k") (Cancel "fa_1")
                world_interrupted)))))) "KeyboardInterrupt").
    right. exists "k". split; [reflexivity|]. left. reflexivity.
Defined.

(** C9 as written fails: a KeyboardInterrupt raised during the HTTP call
    leaves the method, which returns no dict. *)
Lemma methods_let_out_interrupt_counterexample :
  outcome (replies world_interrupted (served world_interrupted))
  = Abort "KeyboardInterrupt"
  /\ fst (get_findall_status (handler_with_key "k") "fa_1" world_interrupted)
     = Abort "KeyboardInterrupt"
  /\ ~ (exists d,
          fst (get_findall_status (handler_with_key "k") "fa_1"
                 world_interrupted) = Val d).
Proof.
  split; [reflexivity|]. split; [reflexivity|].
  intros [d H]. vm_compute in H. discriminate.
Qed.

(** C3, as the code has it.  A call returns a success envelope exactly when
    the secret lookup and the HTTP call return, the status code is 200 and
    the body decodes to a value of the shape the call reads.  It returns
    the failure envelope with the text [HTTP <code>: <body>] for a status
    code other than 200 (every code from 400 on, and also 201 or 204), and
    with the exception's message when the secret lookup, the HTTP call or
    the reading of the body raises an exception that derives from
    [Exception].  An exception that does not derive from [Exception] is
    let out, and that is the only case without an envelope. *)
Theorem success_iff_200 (self : t) (op : operation) (w : World) :
  ((exists d, fst (perform self op w) = Val d
              /\ lookup "success" d = Some (VBool true)) <->
   exists key r v,
     _get_api_key self = Val key
     /\ outcome (replies w (served w)) = Val r
     /\ status_code r = 200%Z
     /\ json r = Val v
     /\ conforming op v = true)
  /\ (forall d,
        fst (perform self op w) = Val d ->
        lookup "success" d = Some (VBool true)
        \/ exists msg, d = failure op msg)
  /\ (forall key r,
        _get_api_key self = Val key ->
        outcome (replies w (served w)) = Val r ->
        status_code r <> 200%Z ->
        fst (perform self op w) = Val (failure op (http_error r)))
  /\ (forall key r,
        _get_api_key self = Val key ->
        outcome (replies w (served w)) = Val r ->
        (400 <= status_code r)%Z ->
        fst (perform self op w)
        = Val (failure op ("HTTP " ++ string_of_Z (status_code r) ++ ": "
                           ++ text r)))
  /\ (forall msg,
        _get_api_key self = Exn msg ->
        fst (perform self op w) = Val (failure op msg))
  /\ (forall key msg,
        _get_api_key self = Val key ->
        outcome (replies w (served w)) = Exn msg ->
        fst (perform self op w) = Val (failure op msg))
  /\ (forall key r msg,
        _get_api_key self = Val key ->
        outcome (replies w (served w)) = Val r ->
        status_code r = 200%Z ->
        json r = Exn msg ->
        fst (perform self op w) = Val (failure op msg))
  /\ (forall key r v,
        _get_api_key self = Val key ->
        outcome (replies w (served w)) = Val r ->
        status_code r = 200%Z ->
        json r = Val v ->
        conforming op v = false ->
        exists msg, fst (perform self op w) = Val (failure op msg))
  /\ ((exists d, fst (perform self op w) = Val d)
      \/ (exists name, fst (perform self op w) = Abort name))
  /\ (forall name,
        fst (perform self op w) = Abort name <-> aborted_by self w name).
Proof.
  repeat split.
  - intros (d & Hd & Hs).
    destruct (perform_returns self op w)
      as [(d' & Hd' & [[msg ->]|[_ Hex]])|(name & Hn & _)].
    + rewrite Hd' in Hd. injection Hd as <-. discriminate.
    + exact Hex.
    + rewrite Hn in Hd. discriminate.
  - intros (key & r & v & Hk & Ho & Hs & Hj & Hc).
    apply (perform_200_conforming self op w key r v Hk Ho Hs Hj Hc).
  - intros d Hd.
    destruct (perform_returns self op w)
      as [(d' & Hd' & [Hf|[Hs _]])|(name & Hn & _)].
    + rewrite Hd' in Hd. injection Hd as <-. right. exact Hf.
    + rewrite Hd' in Hd. injection Hd as <-. left. exact Hs.
    + rewrite Hn in Hd. discriminate.
  - intros key r Hk Ho Hs. eapply perform_not_200; eauto.
  - intros key r Hk Ho Hs.
    apply (perform_not_200 self op w key r Hk Ho). lia.
  - intros msg Hk. rewrite (perform_secret_raises self op w msg Hk).
    reflexivity.
  - intros key msg Hk Ho. eapply perform_transport_raises; eauto.
  - intros key r msg Hk Ho Hs Hj. eapply perform_json_raises; eauto.
  - intros key r v Hk Ho Hs Hj Hc.
    eapply perform_200_nonconforming; eauto.
  - destruct (perform_returns self op w) as [(d & Hd & _)|(name & Hd & _)];
      eauto.
  - apply perform_aborts_iff.
  - apply perform_aborts_iff.
Qed.

Lemma success_iff_200_witness :
  fst (perform (handler_with_key "k") (Cancel "fa_1") world_rejecting)
  = Val [("success", VBool false);
         ("error", VStr "HTTP 500: Internal Server Error");
         ("findall_id", VStr "fa_1")]
  /\ ~ (exists d,
          fst (perform (handler_with_key "k") (Cancel "fa_1") world_rejecting)
          = Val d
          /\ lookup "success" d = Some (VBool true)).
Proof.
  destruct (success_iff_200 (handler_with_key "k") (Cancel "fa_1")
              world_rejecting)
    as (Hiff & _ & _ & H400 & _).
  split.
  - apply (H400 "k" {| status_code := 500;
                       text := "Internal Server Error";
                       json := Exn "" |}).
    + reflexivity.
    + reflexivity.
    + cbn. lia.
  - intros Hs. apply (proj1 Hiff) in Hs.
    destruct Hs as (key & r & v & _ & Ho & Hs & _).
    cbn in Ho. injection Ho as <-. cbn in Hs. discriminate.
Defined.

(** C3 as written fails: a 201 is a 2xx response and no exception is
    raised, yet the call returns a failure envelope. *)
Lemma success_iff_2xx_counterexample :
  outcome (replies world_created (served world_created))
  = Val {| status_code := 201; text := "{}"; json := Val (VDict []) |}
  /\ (200 <= 201 < 300)%Z
  /\ fst (perform (handler_with_key "k") (Status "fa_1") world_created)
     = Val [("success", VBool false);
            ("error", VStr "HTTP 201: {}");
            ("findall_id", VStr "fa_1")].
Proof.
  cbn. split; [reflexivity|]. split; [lia|reflexivity].
Qed.

Lemma script_latency rs :
  Forall (fun r => 0 <= latency r) rs ->
  forall j, 0 <= latency (script rs j).
Proof.
  intros H j. unfold script. revert j.
  induction H as [|r rs Hr _ IH]; intros [|j]; cbn; try lra; auto.
Qed.

Lemma reply_quiet_spec r :
  reply_quiet r = true ->
  (forall name, outcome r <> Abort name)
  /\ (forall r' name, outcome r = Val r' -> json r' <> Abort name).
Proof.
  unfold reply_quiet. intros H. split.
  - intros name E. rewrite E in H. discriminate.
  - intros r' name E Ej. rewrite E, Ej in H. discriminate.
Qed.

Lemma script_quiet rs w :
  replies w = script rs ->
  forallb reply_quiet rs = true ->
  network_quiet w.
Proof.
  intros Hw H j. rewrite Hw. clear Hw. apply reply_quiet_spec.
  unfold script. revert j.
  induction rs as [|r rs IH]; intros j.
  - destruct j; reflexivity.
  - cbn in H. apply andb_true_iff in H as [Hr Hrs].
    destruct j as [|j]; cbn; [exact Hr|apply (IH Hrs)].
Qed.

Lemma wait_for_completion_loop fuel self findall_id poll_interval max_wait w :
  wait_for_completion fuel self findall_id poll_interval max_wait w
  = wait_loop fuel self findall_id poll_interval max_wait (now w) w.
Proof. reflexivity. Qed.

(** ** The claims about the polling loop *)


(** C4.  If a status poll of the loop returns a failure envelope,
    [wait_for_completion] returns that same envelope at once: the world it
    leaves is the world right after that poll, so there is no retry, no
    further sleep and no further request. *)
Theorem poll_failure_propagates
  (self : t) (findall_id : string) (poll_interval max_wait : Z) (w : World)
  (k fuel : nat) (d : dict) :
  ((0 < k)%nat -> sleep_returns w poll_interval) ->
  (forall i, (i < k)%nat ->
     in_time max_wait (now w) (rounds self findall_id poll_interval i w)
     = true
     /\ poll_succeeds self findall_id
          (rounds self findall_id poll_interval i w) = true
     /\ poll_is_active self findall_id
          (rounds self findall_id poll_interval i w) = true) ->
  in_time max_wait (now w) (rounds self findall_id poll_interval k w) = true ->
  fst (get_findall_status self findall_id
         (rounds self findall_id poll_interval k w)) = Val d ->
  truthy (dict_get d "success") = false ->
  (k < fuel)%nat ->
  wait_for_completion fuel self findall_id poll_interval max_wait w
  = (Val (Some d),
     polled self findall_id (rounds self findall_id poll_interval k w))
  /\ (forall key,
        _get_api_key self = Val key ->
        log (polled self findall_id
               (rounds self findall_id poll_interval k w))
        = (log w ++ rounds_events findall_id poll_interval key k
           ++ [Sent (status_request key findall_id)])%list)
  /\ (forall msg,
        _get_api_key self = Exn msg ->
        polled self findall_id (rounds self findall_id poll_interval k w)
        = rounds self findall_id poll_interval k w).
Proof.
  intros Hsl Hk Ht Hd Hs Hf.
  assert (Hgo : wait_loop (k + S (fuel - S k)) self findall_id poll_interval
                  max_wait (now w) w
                = wait_loop (S (fuel - S k)) self findall_id poll_interval
                    max_wait (now w)
                    (rounds self findall_id poll_interval k w)).
  { destruct k as [|k]; [reflexivity|].
    apply wait_loop_rounds; [apply Hsl; lia|exact Hk]. }
  assert (Hlog : forall key,
             _get_api_key self = Val key ->
             log (rounds self findall_id poll_interval k w)
             = (log w ++ rounds_events findall_id poll_interval key k)%list).
  { intros key Hkey. destruct k as [|k].
    - cbn. rewrite app_nil_r. reflexivity.
    - apply rounds_log; [exact Hkey|apply Hsl; lia]. }
  split; [|split].
  - rewrite wait_for_completion_loop.
    replace fuel with (k + S (fuel - S k))%nat by lia.
    rewrite Hgo.
    apply wait_loop_failed; [assumption| |assumption].
    destruct (poll_cases self findall_id
                (rounds self findall_id poll_interval k w))
      as [[d' Hd']|[name Hd']]; rewrite Hd' in Hd; cbn in Hd; congruence.
  - intros key Hkey.
    rewrite (polled_log self findall_id _ key Hkey).
    rewrite (Hlog key Hkey).
    rewrite <- app_assoc. reflexivity.
  - intros msg Hkey. apply (polled_log_no_key self findall_id _ msg Hkey).
Qed.

(** C5.  Whatever the network answers and however long the loop runs,
    [wait_for_completion] only adds to the log rounds of a status GET and a
    sleep, followed by at most the poll that ended the loop and one final
    results GET: it sends no POST, so no cancel, create, extend or enrich
    request, also when it times out. *)
Theorem wait_only_reads
  (self : t) (findall_id : string) (poll_interval max_wait : Z)
  (fuel : nat) (w : World) :
  (forall msg,
     _get_api_key self = Exn msg ->
     snd (wait_for_completion fuel self findall_id poll_interval max_wait w)
     = w)
  /\ (forall key,
        _get_api_key self = Val key ->
        exists k tail,
          log (snd (wait_for_completion fuel self findall_id poll_interval
                      max_wait w))
          = (log w ++ rounds_events findall_id poll_interval key k
             ++ tail)%list
          /\ trace_tail_ok findall_id key tail)
  /\ (exists evs,
        log (snd (wait_for_completion fuel self findall_id poll_interval
                    max_wait w))
        = (log w ++ evs)%list
        /\ Forall (read_only findall_id poll_interval) evs).
Proof.
  rewrite wait_for_completion_loop.
  split; [|split].
  - intros msg Hkey. apply (wait_loop_trace_no_key _ _ _ _ msg Hkey).
  - intros key Hkey. apply wait_loop_trace. exact Hkey.
  - destruct (_get_api_key self) as [key|msg|name] eqn:Hkey.
    + destruct (wait_loop_trace self findall_id poll_interval max_wait key
                  Hkey fuel (now w) w) as (k & tail & Hlog & Htail).
      exists (rounds_events findall_id poll_interval key k ++ tail)%list.
      split; [exact Hlog|].
      apply Forall_app. split.
      * clear. induction k as [|k IH]; cbn; [constructor|].
        constructor; [|constructor; [reflexivity|exact IH]].
        cbn. repeat split. exists key. left. reflexivity.
      * destruct Htail as [->|[->| ->]]; repeat constructor;
          exists key; auto.
    + exists []. rewrite (wait_loop_trace_no_key _ _ _ _ msg Hkey).
      rewrite app_nil_r. split; [reflexivity|constructor].
    + exists []. rewrite (wait_loop_no_key self findall_id poll_interval
                            max_wait).
      * rewrite app_nil_r. split; [reflexivity|constructor].
      * intros key. rewrite Hkey. discriminate.
Qed.



Lemma poll_failure_propagates_witness :
  wait_for_completion 5 (handler_with_key "k") "fa_1" 2 300 world_flaky
  = (Val (Some [("success", VBool false);
                ("error", VStr "HTTP 503: Service Unavailable");
                ("findall_id", VStr "fa_1")]),
     polled (handler_with_key "k") "fa_1"
       (rounds (handler_with_key "k") "fa_1" 2 1 world_flaky))
  /\ log (polled (handler_with_key "k") "fa_1"
            (rounds (handler_with_key "k") "fa_1" 2 1 world_flaky))
     = [Sent (status_request "k" "fa_1"); Slept 2;
        Sent (status_request "k" "fa_1")].
Proof.
  destruct (poll_failure_propagates (handler_with_key "k") "fa_1" 2 300
              world_flaky 1 5
              [("success", VBool false);
               ("error", VStr "HTTP 503: Service Unavailable");
               ("findall_id", VStr "fa_1")]) as (Hret & Hlog & _).
  - intros _. split; [lia|reflexivity].
  - intros i Hi. destruct i as [|i]; [|lia].
    (split; [|split]); vm_compute; reflexivity.
  - vm_compute. reflexivity.
  - vm_compute. reflexivity.
  - reflexivity.
  - lia.
  - split; [exact Hret|]. apply (Hlog "k"). reflexivity.
Defined.

Lemma wait_only_reads_witness :
  snd (wait_for_completion 5 handler_without_module "fa_1" 2 300
         world_completing)
  = world_completing
  /\ exists k tail,
       log (snd (wait_for_completion 5 (handler_with_key "k") "fa_1" 2 300
                   world_completing))
       = (log world_completing ++ rounds_events "fa_1" 2 "k" k ++ tail)%list
       /\ trace_tail_ok "fa_1" "k" tail.
Proof.
  split.
  - apply (proj1 (wait_only_reads handler_without_module "fa_1" 2 300 5
                    world_completing)
             "Snowflake module not initialized").
    reflexivity.
  - apply (proj1 (proj2 (wait_only_reads (handler_with_key "k") "fa_1" 2 300
                           5 world_completing)) "k").
    reflexivity.
Defined.

(** ** The remaining claims *)




(** C10.  [create_findall_run] puts the defaults in the payload for falsy
    arguments, not only for missing ones: [match_limit = 0] sends 10 and
    [generator = ""] sends "core"; any other [match_limit] is sent as it
    is, whether or not it lies in the range from 5 to 1000. *)
Theorem create_defaults_on_falsy
  (self : t) (objective entity_type : string) (match_conditions : value)
  (generator : option string) (match_limit : option Z)
  (exclude_list metadata : value) (w : World) (key : string) :
  _get_api_key self = Val key ->
  exists r payload,
    log (snd (create_findall_run self objective entity_type match_conditions
                generator match_limit exclude_list metadata w))
    = (log w ++ [Sent r])%list
    /\ method r = POST
    /\ url r = "https://api.parallel.ai/v1beta/findall/runs"
    /\ body r = Some (VDict payload)
    /\ (match_limit = Some 0%Z ->
        lookup "match_limit" payload = Some (VInt 10))
    /\ (generator = Some "" ->
        lookup "generator" payload = Some (VStr "core"))
    /\ (forall n, match_limit = Some n -> n <> 0%Z ->
        lookup "match_limit" payload = Some (VInt n))
    /\ (match_limit = None ->
        lookup "match_limit" payload = Some (VInt 10))
    /\ (generator = None ->
        lookup "generator" payload = Some (VStr "core"))
    /\ (forall g, generator = Some g -> g <> "" ->
        lookup "generator" payload = Some (VStr g)).
Proof.
  intros Hk.
  assert (Hml0 : match_limit = Some 0%Z ->
                 match_limit_or match_limit DEFAULT_MATCH_LIMIT = 10%Z)
    by (intros ->; reflexivity).
  assert (Hg0 : generator = Some "" ->
                generator_or generator DEFAULT_GENERATOR = "core")
    by (intros ->; reflexivity).
  assert (Hml : forall n, match_limit = Some n -> n <> 0%Z ->
                match_limit_or match_limit DEFAULT_MATCH_LIMIT = n).
  { intros n -> Hn. cbn. apply Z.eqb_neq in Hn. rewrite Hn. reflexivity. }
  assert (HmlN : match_limit = None ->
                 match_limit_or match_limit DEFAULT_MATCH_LIMIT = 10%Z)
    by (intros ->; reflexivity).
  assert (HgN : generator = None ->
                generator_or generator DEFAULT_GENERATOR = "core")
    by (intros ->; reflexivity).
  assert (Hg : forall g, generator = Some g -> g <> "" ->
               generator_or generator DEFAULT_GENERATOR = g).
  { intros g -> Hn. cbn. apply String.eqb_neq in Hn. rewrite Hn. reflexivity. }
  unfold_ops. rewrite Hk. cbn.
  set (ml := match_limit_or match_limit DEFAULT_MATCH_LIMIT) in *.
  set (gen := generator_or generator DEFAULT_GENERATOR) in *.
  set (rq := {| method := POST |}).
  exists rq. eexists.
  split.
  { repeat (break_match; cbn in *; try reflexivity). }
  subst rq. cbn.
  split; [reflexivity|]. split; [reflexivity|]. split; [reflexivity|].
  destruct (truthy exclude_list), (truthy metadata); cbn;
    repeat split; intros; f_equal; f_equal; auto.
Qed.

Lemma create_defaults_on_falsy_witness :
  (exists r payload,
     log (snd (create_findall_run (handler_with_key "k") "AI companies"
                 "companies" (VList []) (Some "") (Some 0%Z) VNone VNone
                 (world_of [])))
     = [Sent r]
     /\ body r = Some (VDict payload)
     /\ lookup "match_limit" payload = Some (VInt 10)
     /\ lookup "generator" payload = Some (VStr "core"))
  /\ (exists r payload,
        log (snd (create_findall_run (handler_with_key "k") "AI companies"
                    "companies" (VList []) (Some "pro") (Some 5000%Z)
                    VNone VNone (world_of [])))
        = [Sent r]
        /\ body r = Some (VDict payload)
        /\ lookup "match_limit" payload = Some (VInt 5000)
        /\ lookup "generator" payload = Some (VStr "pro")).
Proof.
  split.
  - destruct (create_defaults_on_falsy (handler_with_key "k") "AI companies"
                "companies" (VList []) (Some "") (Some 0%Z) VNone VNone
                (world_of []) "k" eq_refl)
      as (r & payload & Hlog & _ & _ & Hbody & Hml & Hg & _).
    exists r, payload. split; [exact Hlog|]. split; [exact Hbody|].
    split; [apply Hml|apply Hg]; reflexivity.
  - destruct (create_defaults_on_falsy (handler_with_key "k") "AI companies"
                "companies" (VList []) (Some "pro") (Some 5000%Z) VNone VNone
                (world_of []) "k" eq_refl)
      as (r & payload & Hlog & _ & _ & Hbody & _ & _ & Hml & _ & _ & Hg).
    exists r, payload. split; [exact Hlog|]. split; [exact Hbody|].
    split; [apply (Hml 5000%Z)|apply (Hg "pro")];
      try reflexivity; discriminate.
Defined.

Lemma filter_length_Z {A} (f : A -> bool) (l : list A) :
  (Z.of_nat (length (filter f l)) <= Z.of_nat (length l))%Z.
Proof. apply inj_le, filter_length_le. Qed.

Lemma results_conforming_envelope (self : t) (findall_id : string)
  (w : World) :
  forall key r d,
     _get_api_key self = Val key ->
     outcome (replies w (served w)) = Val r ->
     status_code r = 200%Z ->
     json r = Val (VDict d) ->
     conforming (Results findall_id) (VDict d) = true ->
     exists status is_active,
       fst (get_findall_results self findall_id w)
       = Val [("success", VBool true);
              ("findall_id", VStr findall_id);
              ("status", status);
              ("is_active", is_active);
              ("total_candidates",
               VInt (Z.of_nat (length (candidates_of d))));
              ("matched_count",
               VInt (Z.of_nat (length (filter is_matched
                                         (candidates_of d)))));
              ("candidates", VList (filter is_matched (candidates_of d)))].
Proof.
  intros key r d Hk Ho Hs Hj Hc. apply Z.eqb_eq in Hs.
    unfold_ops. rewrite Hk. cbn. rewrite Ho, Hs, Hj. cbn.
    cbn in Hc.
    assert (Hrun : exists run,
               match lookup "run" d with Some x => x | None => VDict [] end
               = VDict run /\ status_ok run = true
               /\ candidates_ok d = true).
    { destruct (lookup "run" d) as [[]|]; try discriminate.
      - apply andb_true_iff in Hc as [? ?]. eauto.
      - exists []. auto. }
    destruct Hrun as (run & -> & Hrun & Hcand).
    assert (Hseq :
              iterate (match lookup "candidates" d with
                       | Some x => x | None => VList [] end)
              = Val (candidates_of d)
              /\ forallb is_dict (candidates_of d) = true
              /\ len (match lookup "candidates" d with
                      | Some x => x | None => VList [] end)
                 = Val (Z.of_nat (length (candidates_of d)))).
    { unfold candidates_ok in Hcand. unfold candidates_of.
      destruct (lookup "candidates" d) as [[| | | |s|l|c]|];
        try discriminate; cbn; auto.
      - apply String.eqb_eq in Hcand. subst. cbn. auto.
      - destruct c; try discriminate. cbn. auto. }
    destruct Hseq as (-> & Hobj & ->).
    rewrite (matched_of_objects _ Hobj). cbn.
    unfold status_ok in Hrun.
    destruct (lookup "status" run) as [[]|]; try discriminate; cbn;
      eexists _, _; reflexivity.
Qed.

(** C2, as the code has it.  For a 200 response whose body decodes to an
    object of the shape [get_findall_results] reads ([run] and its
    [status], when present, are objects; [candidates], when present, is a
    list of objects, or an empty string or an empty object, which give no
    candidate), the result is the success envelope whose [candidates] are
    the candidates of the response with [match_status] equal to "matched",
    in their order, whose [matched_count] is their number and whose
    [total_candidates] is the number of all candidates.  A 200 response
    whose body cannot be read that way gives a failure envelope: with the
    message of the decoding when it raises, with the message of the
    reading otherwise.  In every success envelope
    [matched_count <= total_candidates]. *)
Theorem results_are_matched_candidates
  (self : t) (findall_id : string) (w : World) :
  (forall key r d,
     _get_api_key self = Val key ->
     outcome (replies w (served w)) = Val r ->
     status_code r = 200%Z ->
     json r = Val (VDict d) ->
     conforming (Results findall_id) (VDict d) = true ->
     exists status is_active,
       fst (get_findall_results self findall_id w)
       = Val [("success", VBool true);
              ("findall_id", VStr findall_id);
              ("status", status);
              ("is_active", is_active);
              ("total_candidates",
               VInt (Z.of_nat (length (candidates_of d))));
              ("matched_count",
               VInt (Z.of_nat (length (filter is_matched
                                         (candidates_of d)))));
              ("candidates", VList (filter is_matched (candidates_of d)))])
  /\ (forall key r v,
        _get_api_key self = Val key ->
        outcome (replies w (served w)) = Val r ->
        status_code r = 200%Z ->
        json r = Val v ->
        conforming (Results findall_id) v = false ->
        exists msg,
          fst (get_findall_results self findall_id w)
          = Val [("success", VBool false);
                 ("error", VStr msg);
                 ("findall_id", VStr findall_id)])
  /\ (forall key r msg,
        _get_api_key self = Val key ->
        outcome (replies w (served w)) = Val r ->
        status_code r = 200%Z ->
        json r = Exn msg ->
        fst (get_findall_results self findall_id w)
        = Val [("success", VBool false);
               ("error", VStr msg);
               ("findall_id", VStr findall_id)])
  /\ (forall e,
        fst (get_findall_results self findall_id w) = Val e ->
        lookup "success" e = Some (VBool true) ->
        exists m n,
          lookup "matched_count" e = Some (VInt m)
          /\ lookup "total_candidates" e = Some (VInt n)
          /\ (m <= n)%Z).
Proof.
  split; [apply results_conforming_envelope|].
  split; [|split].
  - intros key r v Hk Ho Hs Hj Hc.
    apply (perform_200_nonconforming self (Results findall_id) w key r v
             Hk Ho Hs Hj Hc).
  - intros key r msg Hk Ho Hs Hj.
    apply (perform_json_raises self (Results findall_id) w key r msg
             Hk Ho Hs Hj).
  - intros e He Hsucc.
    destruct (perform_returns self (Results findall_id) w)
      as [(e' & He' & [[msg ->]|[_ (key & r & v & Hk & Ho & Hs & Hj & Hc)]])
         |(name & Hn & _)].
    + cbn in He'. rewrite He' in He. injection He as <-. discriminate.
    + destruct v; try discriminate.
      destruct (results_conforming_envelope self findall_id w key r d
                  Hk Ho Hs Hj Hc) as (st & ia & Hres).
      rewrite Hres in He. injection He as <-.
      eexists _, _. split; [reflexivity|]. split; [reflexivity|].
      apply filter_length_Z.
    + cbn in Hn. rewrite Hn in He. discriminate.
Qed.

Lemma results_are_matched_candidates_witness :
  fst (get_findall_results (handler_with_key "k") "fa_1" world_results)
  = Val [("success", VBool true);
         ("findall_id", VStr "fa_1");
         ("status", VStr "completed");
         ("is_active", VBool false);
         ("total_candidates", VInt 3);
         ("matched_count", VInt 2);
         ("candidates", VList [candidate "Acme" "matched";
                               candidate "Core" "matched"])]
  /\ exists msg,
       fst (get_findall_results (handler_with_key "k") "fa_1"
              world_null_candidates)
       = Val [("success", VBool false);
              ("error", VStr msg);
              ("findall_id", VStr "fa_1")].
Proof.
  split.
  - destruct (proj1 (results_are_matched_candidates (handler_with_key "k")
                       "fa_1" world_results)
                "k" _ _ eq_refl eq_refl eq_refl eq_refl eq_refl)
      as (st & ia & H).
    rewrite H. vm_compute in H. injection H as <- <-. reflexivity.
  - apply (proj1 (proj2 (results_are_matched_candidates
                           (handler_with_key "k") "fa_1"
                           world_null_candidates))
             "k" _ _ eq_refl eq_refl eq_refl eq_refl).
    reflexivity.
Defined.

(** C2 as written fails: a 200 response whose [candidates] is null gives
    a failure envelope. *)
Lemma results_null_candidates_counterexample :
  outcome (replies world_null_candidates (served world_null_candidates))
  = Val {| status_code := 200;
           text := "";
           json := Val (VDict [("run", run_body "running" true);
                               ("candidates", VNone)]) |}
  /\ fst (get_findall_results (handler_with_key "k") "fa_1"
            world_null_candidates)
     = Val [("success", VBool false);
            ("error", VStr "'NoneType' object is not iterable");
            ("findall_id", VStr "fa_1")].
Proof.
  split; vm_compute; reflexivity.
Qed.

(** C8, on the code.  The UDF entry point of enrich decodes a textual
    [output_schema] before it enters the handler and outside any
    [try]: when [json.loads] raises, the exception reaches the caller, no
    envelope is returned and no request is sent. *)
Theorem enrich_entry_point_raises
  (json_loads : string -> exc value) (json_dumps : value -> string)
  (findall_id s : string) (processor : value)
  (_snowflake_module : option SnowflakeModule) (w : World) (msg : string) :
  json_loads s = Exn msg ->
  UDF.enrich_findall json_loads json_dumps findall_id (VStr s) processor
    _snowflake_module w
  = (Exn msg, w).
Proof.
  intros H. unfold UDF.enrich_findall, bind, lift. rewrite H. reflexivity.
Qed.

Lemma enrich_entry_point_raises_witness :
  UDF.enrich_findall loads_sample dumps_opaque "fa_1" (VStr "{revenue")
    (VStr "core") (_snowflake (handler_with_key "k")) (world_of [])
  = (Exn "Expecting property name enclosed in double quotes: line 1 column 2 (char 1)",
     world_of []).
Proof.
  apply enrich_entry_point_raises. reflexivity.
Defined.









(** * Further properties of the code *)

(** X1.  Whatever the network answers, a call made with a key sends exactly one
    request: with the method and URL of the call, the three headers and a
    timeout of 120 seconds. *)
Theorem one_request_per_call (self : t) (op : operation) (w : World)
  (key : string) :
  _get_api_key self = Val key ->
  exists r,
    snd (perform self op w) = after_send r w
    /\ method r = fst (endpoint op)
    /\ url r = snd (endpoint op)
    /\ headers r = auth_headers key
    /\ timeout r = 120%Z.
Proof.
  intros Hk.
  destruct op; unfold_ops; rewrite Hk; cbn.
  1:{ set (rq := {| method := POST |}). exists rq. split.
      - repeat (break_match; cbn in *; try reflexivity).
      - subst rq. cbn. auto. }
  all: eexists; split;
    [repeat (break_match; cbn in *; try reflexivity)
    |cbn; repeat split; reflexivity].
Qed.

Lemma one_request_per_call_witness :
  exists r,
    snd (perform (handler_with_key "k") (Cancel "fa_1") world_rejecting)
    = after_send r world_rejecting
    /\ method r = POST
    /\ url r = "https://api.parallel.ai/v1beta/findall/runs/fa_1/cancel"
    /\ headers r = auth_headers "k"
    /\ timeout r = 120%Z.
Proof.
  apply (one_request_per_call (handler_with_key "k") (Cancel "fa_1")
           world_rejecting "k").
  reflexivity.
Defined.

(** X2.  The payload of a creation: the five fields always, [exclude_list] and
    [metadata] only when they are truthy (so an empty list, an empty dict
    or None is left out), in that order. *)
Theorem create_payload_fields
  (self : t) (objective entity_type : string) (match_conditions : value)
  (generator : option string) (match_limit : option Z)
  (exclude_list metadata : value) (w : World) (key : string) :
  _get_api_key self = Val key ->
  exists r payload,
    log (snd (create_findall_run self objective entity_type match_conditions
                generator match_limit exclude_list metadata w))
    = (log w ++ [Sent r])%list
    /\ body r = Some (VDict payload)
    /\ map fst payload
       = (["objective"; "entity_type"; "match_conditions"; "generator";
           "match_limit"]
          ++ (if truthy exclude_list then ["exclude_list"] else [])
          ++ (if truthy metadata then ["metadata"] else []))%list
    /\ lookup "objective" payload = Some (VStr objective)
    /\ lookup "entity_type" payload = Some (VStr entity_type)
    /\ lookup "match_conditions" payload = Some match_conditions
    /\ lookup "exclude_list" payload
       = (if truthy exclude_list then Some exclude_list else None)
    /\ lookup "metadata" payload
       = (if truthy metadata then Some metadata else None).
Proof.
  intros Hk. unfold_ops. rewrite Hk. cbn.
  set (rq := {| method := POST |}). exists rq. eexists. split.
  { repeat (break_match; cbn in *; try reflexivity). }
  subst rq. cbn. split; [reflexivity|].
  destruct (truthy exclude_list), (truthy metadata); cbn;
    repeat split; reflexivity.
Qed.

Lemma create_payload_fields_witness :
  exists r payload,
    log (snd (create_findall_run (handler_with_key "k") "AI companies"
                "companies" (VList []) None None (VList [])
                (VDict [("team", VStr "gtm")]) (world_of [])))
    = [Sent r]
    /\ body r = Some (VDict payload)
    /\ map fst payload
       = ["objective"; "entity_type"; "match_conditions"; "generator";
          "match_limit"; "metadata"]
    /\ lookup "exclude_list" payload = None.
Proof.
  destruct (create_payload_fields (handler_with_key "k") "AI companies"
              "companies" (VList []) None None (VList [])
              (VDict [("team", VStr "gtm")]) (world_of []) "k" eq_refl)
    as (r & payload & Hlog & Hbody & Hkeys & _ & _ & _ & Hex & _).
  exists r, payload. auto.
Defined.

(** X3.  Extend, enrich and cancel send their arguments as they are: the
    additional limit is not checked to be positive, the schema and the
    processor are not validated, and a cancel has no body. *)
Theorem bodies_are_the_arguments
  (self : t) (findall_id : string) (w : World) (key : string) :
  _get_api_key self = Val key ->
  (forall n,
     exists r,
       log (snd (extend_findall self findall_id n w))
       = (log w ++ [Sent r])%list
       /\ body r = Some (VDict [("additional_match_limit", n)]))
  /\ (forall output_schema processor,
        exists r,
          log (snd (enrich_findall self findall_id output_schema processor w))
          = (log w ++ [Sent r])%list
          /\ body r = Some (VDict [("processor", processor);
                                   ("output_schema", output_schema)]))
  /\ (exists r,
        log (snd (cancel_findall self findall_id w))
        = (log w ++ [Sent r])%list
        /\ body r = None).
Proof.
  intros Hk. split; [|split]; intros; unfold_ops; rewrite Hk; cbn;
    (eexists; split;
     [repeat (break_match; cbn in *; try reflexivity)|reflexivity]).
Qed.

Lemma bodies_are_the_arguments_witness :
  exists r,
    log (snd (extend_findall (handler_with_key "k") "fa_1" (VInt (-3))
                world_rejecting))
    = [Sent r]
    /\ body r = Some (VDict [("additional_match_limit", VInt (-3))]).
Proof.
  apply (proj1 (bodies_are_the_arguments (handler_with_key "k") "fa_1"
                  world_rejecting "k" eq_refl)).
Defined.

(** X4.  The key goes into the [x-api-key] header of the request and nowhere
    else in it: for the same call, handlers with different keys send
    requests with the same method, URL, body and timeout, whose headers
    differ in that one entry only, whatever the network has answered. *)
Theorem key_only_in_header
  (h1 h2 : t) (k1 k2 : string) (op : operation) (w1 w2 : World) :
  _get_api_key h1 = Val k1 ->
  _get_api_key h2 = Val k2 ->
  exists r1 r2,
    log (snd (perform h1 op w1)) = (log w1 ++ [Sent r1])%list
    /\ log (snd (perform h2 op w2)) = (log w2 ++ [Sent r2])%list
    /\ method r1 = method r2
    /\ url r1 = url r2
    /\ body r1 = body r2
    /\ timeout r1 = timeout r2
    /\ headers r1 = [("x-api-key", k1); ("Content-Type", "application/json");
                     ("parallel-beta", "findall-2025-09-15")]
    /\ headers r2 = [("x-api-key", k2); ("Content-Type", "application/json");
                     ("parallel-beta", "findall-2025-09-15")].
Proof.
  intros H1 H2.
  destruct op; unfold_ops; rewrite H1, H2; cbn.
  1:{ destruct (truthy exclude_list), (truthy metadata);
        (eexists; eexists; split;
         [repeat (break_match; cbn in *; try reflexivity)
         |split;
          [repeat (break_match; cbn in *; try reflexivity)
          |cbn; repeat split; reflexivity]]). }
  all: eexists; eexists; split;
    [repeat (break_match; cbn in *; try reflexivity)
    |split;
     [repeat (break_match; cbn in *; try reflexivity)
     |cbn; repeat split; reflexivity]].
Qed.

Lemma key_only_in_header_witness :
  exists r1 r2,
    log (snd (perform (handler_with_key "k1")
                (Enrich "fa_1" (VDict [("type", VStr "object")]) (VStr "core"))
                world_results))
    = (log world_results ++ [Sent r1])%list
    /\ log (snd (perform (handler_with_key "k2")
                   (Enrich "fa_1" (VDict [("type", VStr "object")])
                      (VStr "core"))
                   world_rejecting))
       = (log world_rejecting ++ [Sent r2])%list
    /\ method r1 = method r2
    /\ url r1 = url r2
    /\ body r1 = body r2
    /\ timeout r1 = timeout r2
    /\ headers r1 = [("x-api-key", "k1"); ("Content-Type", "application/json");
                     ("parallel-beta", "findall-2025-09-15")]
    /\ headers r2 = [("x-api-key", "k2"); ("Content-Type", "application/json");
                     ("parallel-beta", "findall-2025-09-15")].
Proof.
  apply (key_only_in_header (handler_with_key "k1") (handler_with_key "k2")
           "k1" "k2"); reflexivity.
Defined.

(** X5.  The handler asks the secret module for [api_key] and for nothing else:
    two modules that agree on that name give the same behaviour. *)
Theorem only_api_key_is_read (m1 m2 : SnowflakeModule) (op : operation)
  (w : World) :
  get_generic_secret_string m1 "api_key"
  = get_generic_secret_string m2 "api_key" ->
  perform {| _snowflake := Some m1 |} op w
  = perform {| _snowflake := Some m2 |} op w.
Proof.
  intros H. destruct op; unfold_ops; unfold _get_api_key; cbn; rewrite H;
    reflexivity.
Qed.

Lemma only_api_key_is_read_witness :
  perform (handler_with_key "k") (Status "fa_1") world_flaky
  = perform {| _snowflake :=
                 Some {| get_generic_secret_string := fun _ => Val "k" |} |}
      (Status "fa_1") world_flaky.
Proof.
  apply only_api_key_is_read. reflexivity.
Defined.

Ltac on_200 Hk Ho Hs Hj :=
  apply Z.eqb_eq in Hs; unfold_ops; rewrite Hk; cbn; rewrite Ho, Hs, Hj; cbn.

(** X6.  The envelope of a successful creation: every field is read from the
    body of the response and is None when the body does not have it, the
    job id included. *)
Theorem create_success_envelope
  (self : t) (objective entity_type : string) (match_conditions : value)
  (generator : option string) (match_limit : option Z)
  (exclude_list metadata : value) (w : World) (key : string)
  (r : Response) (d : dict) :
  _get_api_key self = Val key ->
  outcome (replies w (served w)) = Val r ->
  status_code r = 200%Z ->
  json r = Val (VDict d) ->
  status_ok d = true ->
  fst (create_findall_run self objective entity_type match_conditions
         generator match_limit exclude_list metadata w)
  = Val [("success", VBool true);
         ("findall_id", dict_get d "findall_id");
         ("status", dict_get (status_of d) "status");
         ("is_active", dict_get (status_of d) "is_active");
         ("generator", dict_get d "generator");
         ("created_at", dict_get d "created_at")].
Proof.
  intros Hk Ho Hs Hj Hok. on_200 Hk Ho Hs Hj.
  unfold status_ok in Hok. unfold status_of, dict_get.
  destruct (lookup "status" d) as [[]|]; try discriminate; reflexivity.
Qed.

Lemma create_success_envelope_witness :
  fst (create_findall_run (handler_with_key "k") "AI companies" "companies"
         (VList []) None None VNone VNone world_empty_object)
  = Val [("success", VBool true);
         ("findall_id", VNone);
         ("status", VNone);
         ("is_active", VNone);
         ("generator", VNone);
         ("created_at", VNone)].
Proof.
  apply (create_success_envelope (handler_with_key "k") "AI companies"
           "companies" (VList []) None None VNone VNone world_empty_object
           "k" {| status_code := 200; text := "{}"; json := Val (VDict []) |}
           []); reflexivity.
Defined.

(** X7.  The envelope of a successful status call: the job id is the argument
    of the call, the other fields are read from the body; [metrics] is an
    empty object and the others are None when the body does not have
    them. *)
Theorem status_success_envelope
  (self : t) (findall_id : string) (w : World) (key : string)
  (r : Response) (d : dict) :
  _get_api_key self = Val key ->
  outcome (replies w (served w)) = Val r ->
  status_code r = 200%Z ->
  json r = Val (VDict d) ->
  status_ok d = true ->
  fst (get_findall_status self findall_id w)
  = Val [("success", VBool true);
         ("findall_id", VStr findall_id);
         ("status", dict_get (status_of d) "status");
         ("is_active", dict_get (status_of d) "is_active");
         ("metrics", dict_get_default (status_of d) "metrics" (VDict []));
         ("modified_at", dict_get d "modified_at")].
Proof.
  intros Hk Ho Hs Hj Hok. on_200 Hk Ho Hs Hj.
  unfold status_ok in Hok. unfold status_of, dict_get, dict_get_default.
  destruct (lookup "status" d) as [[]|]; try discriminate; reflexivity.
Qed.

Lemma status_success_envelope_witness :
  fst (get_findall_status (handler_with_key "k") "fa_9" world_completing)
  = Val [("success", VBool true);
         ("findall_id", VStr "fa_9");
         ("status", VStr "running");
         ("is_active", VBool true);
         ("metrics", VDict [("generated_candidates_count", VInt 3)]);
         ("modified_at", VStr "2025-10-01T00:00:00Z")].
Proof.
  apply (status_success_envelope (handler_with_key "k") "fa_9"
           world_completing "k"
           {| status_code := 200; text := "";
              json := Val (run_body "running" true) |}
           [("findall_id", VStr "fa_1");
            ("status", VDict [("status", VStr "running");
                              ("is_active", VBool true);
                              ("metrics",
                               VDict [("generated_candidates_count",
                                       VInt 3)])]);
            ("modified_at", VStr "2025-10-01T00:00:00Z")]); reflexivity.
Defined.

(** X8.  The envelopes of a successful extend, enrich and cancel: the job id is
    the argument of the call; the new limit, the objective, the entity
    type and the status are those of the body (None when missing), the
    enrichments are an empty list when the body has none. *)
Theorem mutation_success_envelopes
  (self : t) (findall_id : string) (w : World) (key : string)
  (r : Response) (d : dict) :
  _get_api_key self = Val key ->
  outcome (replies w (served w)) = Val r ->
  status_code r = 200%Z ->
  json r = Val (VDict d) ->
  (forall n,
     fst (extend_findall self findall_id n w)
     = Val [("success", VBool true);
            ("findall_id", VStr findall_id);
            ("new_match_limit", dict_get d "match_limit");
            ("objective", dict_get d "objective");
            ("entity_type", dict_get d "entity_type")])
  /\ (forall output_schema processor,
        fst (enrich_findall self findall_id output_schema processor w)
        = Val [("success", VBool true);
               ("findall_id", VStr findall_id);
               ("enrichments", dict_get_default d "enrichments" (VList []));
               ("objective", dict_get d "objective")])
  /\ (status_ok d = true ->
      fst (cancel_findall self findall_id w)
      = Val [("success", VBool true);
             ("findall_id", VStr findall_id);
             ("status", dict_get (status_of d) "status");
             ("message", VStr "FindAll run cancelled")]).
Proof.
  intros Hk Ho Hs Hj. apply Z.eqb_eq in Hs.
  split; [|split]; intros; unfold_ops; rewrite Hk; cbn;
    rewrite Ho, Hs, Hj; cbn; try reflexivity.
  match goal with H : status_ok d = true |- _ => unfold status_ok in H end.
  unfold status_of, dict_get.
  destruct (lookup "status" d) as [[]|]; try discriminate; reflexivity.
Qed.

Lemma mutation_success_envelopes_witness :
  fst (enrich_findall (handler_with_key "k") "fa_1" (VStr "not a schema")
         VNone world_empty_object)
  = Val [("success", VBool true);
         ("findall_id", VStr "fa_1");
         ("enrichments", VList []);
         ("objective", VNone)]
  /\ fst (cancel_findall (handler_with_key "k") "fa_1" world_empty_object)
     = Val [("success", VBool true);
            ("findall_id", VStr "fa_1");
            ("status", VNone);
            ("message", VStr "FindAll run cancelled")].
Proof.
  destruct (mutation_success_envelopes (handler_with_key "k") "fa_1"
              world_empty_object "k"
              {| status_code := 200; text := "{}"; json := Val (VDict []) |}
              [] eq_refl eq_refl eq_refl eq_refl) as (_ & Hen & Hca).
  split; [apply Hen|apply Hca; reflexivity].
Defined.

(** X9.  The [status] and [is_active] of a result envelope are those of the
    object under [run] of the body, not of the body itself: they are None
    when the body has no [run]. *)
Theorem results_status_fields
  (self : t) (findall_id : string) (w : World) (key : string)
  (r : Response) (d : dict) :
  _get_api_key self = Val key ->
  outcome (replies w (served w)) = Val r ->
  status_code r = 200%Z ->
  json r = Val (VDict d) ->
  conforming (Results findall_id) (VDict d) = true ->
  exists e,
    fst (get_findall_results self findall_id w) = Val e
    /\ lookup "findall_id" e = Some (VStr findall_id)
    /\ lookup "status" e = Some (dict_get (status_of (run_of d)) "status")
    /\ lookup "is_active" e
       = Some (dict_get (status_of (run_of d)) "is_active").
Proof.
  intros Hk Ho Hs Hj Hc. apply Z.eqb_eq in Hs.
  unfold_ops. rewrite Hk. cbn. rewrite Ho, Hs, Hj. cbn. cbn in Hc.
  assert (Hrun : match lookup "run" d with Some x => x | None => VDict [] end
                 = VDict (run_of d)
                 /\ status_ok (run_of d) = true
                 /\ candidates_ok d = true).
  { unfold run_of. destruct (lookup "run" d) as [[]|]; try discriminate.
    - apply andb_true_iff in Hc as [? ?]. auto.
    - auto. }
  destruct Hrun as (-> & Hrun & Hcand).
  destruct (iterate_matched_conforming d Hcand) as (cs & n & -> & Hcs & ->).
  rewrite (matched_of_objects cs Hcs). cbn.
  unfold status_ok in Hrun. unfold status_of, dict_get.
  destruct (lookup "status" (run_of d)) as [[]|]; try discriminate; cbn;
    eexists; repeat split; reflexivity.
Qed.

Lemma results_status_fields_witness :
  exists e,
    fst (get_findall_results (handler_with_key "k") "fa_1"
           world_empty_object) = Val e
    /\ lookup "findall_id" e = Some (VStr "fa_1")
    /\ lookup "status" e = Some VNone
    /\ lookup "is_active" e = Some VNone.
Proof.
  apply (results_status_fields (handler_with_key "k") "fa_1"
           world_empty_object "k"
           {| status_code := 200; text := "{}"; json := Val (VDict []) |}
           []); reflexivity.
Defined.

Lemma in_time_at_start max_wait w :
  in_time max_wait (now w) w = true <-> (0 < max_wait)%Z.
Proof.
  unfold in_time, Qltb. rewrite negb_true_iff.
  assert (Hz : now w - now w == 0) by ring.
  split.
  - intros H. destruct (Z.lt_ge_cases 0 max_wait) as [|Hle]; [assumption|].
    assert (Hq : Qle_bool (inject_Z max_wait) (now w - now w) = true).
    { apply Qle_bool_iff. rewrite Hz. change 0 with (inject_Z 0).
      rewrite <- Zle_Qle. lia. }
    congruence.
  - intros H. destruct (Qle_bool (inject_Z max_wait) (now w - now w)) eqn:E;
      [|reflexivity].
    apply Qle_bool_iff in E. rewrite Hz in E. change 0 with (inject_Z 0) in E.
    rewrite <- Zle_Qle in E. lia.
Qed.





(** X14.  A status body without a truthy [is_active] (the flag missing, null,
    false, 0 or empty) ends the wait: after that first poll the results are
    fetched, and the wait ends as that retrieval does, returning the
    envelope it returns; it does return one when the network raises
    nothing outside [Exception]. *)
Theorem wait_ends_on_missing_flag
  (fuel : nat) (self : t) (findall_id : string) (poll_interval max_wait : Z)
  (w : World) (key : string) (r : Response) (d : dict) :
  (0 < max_wait)%Z ->
  _get_api_key self = Val key ->
  outcome (replies w (served w)) = Val r ->
  status_code r = 200%Z ->
  json r = Val (VDict d) ->
  status_ok d = true ->
  truthy (dict_get (status_of d) "is_active") = false ->
  wait_for_completion (S fuel) self findall_id poll_interval max_wait w
  = (returned
       (fst (get_findall_results self findall_id
               (after_send (status_request key findall_id) w))),
     snd (get_findall_results self findall_id
            (after_send (status_request key findall_id) w)))
  /\ (network_quiet w ->
      exists res w',
        get_findall_results self findall_id
          (after_send (status_request key findall_id) w)
        = (Val res, w')
        /\ wait_for_completion (S fuel) self findall_id poll_interval
             max_wait w
           = (Val (Some res), w')).
Proof.
  intros Hmw Hk Ho Hs Hj Hok Hflag.
  assert (Heq : wait_for_completion (S fuel) self findall_id poll_interval
                  max_wait w
                = (returned
                     (fst (get_findall_results self findall_id
                             (after_send (status_request key findall_id) w))),
                   snd (get_findall_results self findall_id
                          (after_send (status_request key findall_id) w)))).
  2:{ split; [exact Heq|]. intros Hq.
      destruct (perform_returns_quiet self (Results findall_id)
                  (after_send (status_request key findall_id) w))
        as [res Hres].
      - intros name H. rewrite Hk in H. discriminate.
      - exact Hq.
      - cbn [perform] in Hres. exists res. eexists.
        rewrite Heq, Hres. cbn [returned].
        split; [|reflexivity]. rewrite <- Hres. apply surjective_pairing. }
  rewrite wait_for_completion_loop.
  assert (Hpolled : polled self findall_id w
                    = after_send (status_request key findall_id) w).
  { unfold polled. apply status_world. exact Hk. }
  assert (Hst' : fst (get_findall_status self findall_id w)
                 = Val [("success", VBool true);
                        ("findall_id", VStr findall_id);
                        ("status", dict_get (status_of d) "status");
                        ("is_active", dict_get (status_of d) "is_active");
                        ("metrics",
                         match lookup "metrics" (status_of d) with
                         | Some v => v | None => VDict [] end);
                        ("modified_at", dict_get d "modified_at")]).
  { pose proof Hs as Hs'. apply Z.eqb_eq in Hs'.
    unfold_ops. rewrite Hk. cbn. rewrite Ho, Hs', Hj. cbn.
    unfold status_ok in Hok. unfold status_of, dict_get.
    destruct (lookup "status" d) as [[]|]; try discriminate; reflexivity. }
  destruct (poll_cases self findall_id w) as [[st Hst]|[name Hst]];
    rewrite Hst in Hst'; cbn in Hst'; [|discriminate].
  injection Hst' as Hst'.
  rewrite <- Hpolled.
  apply (wait_loop_finished self findall_id poll_interval max_wait fuel
           (now w) w st).
  - apply in_time_at_start. exact Hmw.
  - exact Hst.
  - subst st. reflexivity.
  - subst st. exact Hflag.
Qed.

Lemma wait_ends_on_missing_flag_witness :
  fst (wait_for_completion 1 (handler_with_key "k") "fa_1" 5 300
         world_no_flag)
  = Val (Some [("success", VBool true);
               ("findall_id", VStr "fa_1");
               ("status", VStr "completed");
               ("is_active", VBool false);
               ("total_candidates", VInt 0);
               ("matched_count", VInt 0);
               ("candidates", VList [])]).
Proof.
  destruct (wait_ends_on_missing_flag 0 (handler_with_key "k") "fa_1" 5 300
              world_no_flag "k"
              {| status_code := 200; text := "";
                 json := Val (VDict [("status",
                                      VDict [("status", VStr "running")])]) |}
              [("status", VDict [("status", VStr "running")])])
    as [_ Hq];
    [lia|reflexivity|reflexivity|reflexivity|reflexivity|reflexivity
    |reflexivity|].
  destruct Hq as (res & w' & Hres & Hw).
  { apply (script_quiet _ world_no_flag eq_refl). reflexivity. }
  rewrite Hw. vm_compute in Hres. injection Hres as <- _. reflexivity.
Defined.

(** X15.  A wait on a handler whose secret lookup raises returns the failure
    envelope of the first poll at once, without any request or sleep. *)
Theorem wait_without_secret
  (fuel : nat) (self : t) (findall_id : string) (poll_interval max_wait : Z)
  (w : World) (msg : string) :
  (0 < max_wait)%Z ->
  _get_api_key self = Exn msg ->
  wait_for_completion (S fuel) self findall_id poll_interval max_wait w
  = (Val (Some [("success", VBool false);
                ("error", VStr msg);
                ("findall_id", VStr findall_id)]), w).
Proof.
  intros Hmw Hk. rewrite wait_for_completion_loop.
  pose proof (perform_secret_raises self (Status findall_id) w msg Hk) as H.
  cbn in H.
  assert (Hw : polled self findall_id w = w)
    by (apply (polled_log_no_key self findall_id w msg Hk)).
  rewrite (wait_loop_failed self findall_id poll_interval max_wait fuel
             (now w) w (failure (Status findall_id) msg)).
  - rewrite Hw. reflexivity.
  - apply in_time_at_start. exact Hmw.
  - rewrite Hw. exact H.
  - reflexivity.
Qed.

Lemma wait_without_secret_witness :
  wait_for_completion 5 handler_without_module "fa_1" 5 300 world_completing
  = (Val (Some [("success", VBool false);
                ("error", VStr "Snowflake module not initialized");
                ("findall_id", VStr "fa_1")]), world_completing).
Proof.
  apply (wait_without_secret 4 handler_without_module "fa_1" 5 300
           world_completing); [lia|reflexivity].
Defined.

Section RequestBound.

Variables (self : t) (findall_id : string) (poll_interval max_wait : Z).

Lemma polled_served w :
  (served (polled self findall_id w) <= S (served w))%nat.
Proof.
  unfold polled. destruct (_get_api_key self) as [key|msg|name] eqn:Hk.
  - rewrite (status_world self findall_id w key Hk). cbn. lia.
  - pose proof (perform_secret_raises self (Status findall_id) w msg Hk) as H.
    cbn in H. rewrite H. cbn. lia.
  - pose proof (perform_secret_aborts self (Status findall_id) w name Hk) as H.
    cbn in H. rewrite H. cbn. lia.
Qed.

Lemma results_served w :
  (served (snd (get_findall_results self findall_id w)) <= S (served w))%nat.
Proof.
  destruct (_get_api_key self) as [key|msg|name] eqn:Hk.
  - rewrite (results_world self findall_id w key Hk). cbn. lia.
  - pose proof (perform_secret_raises self (Results findall_id) w msg Hk) as H.
    cbn in H. rewrite H. cbn. lia.
  - pose proof (perform_secret_aborts self (Results findall_id) w name Hk)
      as H.
    cbn in H. rewrite H. cbn. lia.
Qed.

Lemma round_served w :
  served (round self findall_id poll_interval w)
  = served (polled self findall_id w).
Proof.
  unfold round, time_sleep. destruct (poll_interval <? 0)%Z; [reflexivity|].
  destruct (sleeping (polled self findall_id w) poll_interval); reflexivity.
Qed.

(** A sleep that returns has moved the clock by its length. *)
Lemma round_clock_returned w u :
  fst (time_sleep poll_interval (polled self findall_id w)) = Val u ->
  now (round self findall_id poll_interval w)
  = now (polled self findall_id w) + inject_Z poll_interval.
Proof.
  unfold round, time_sleep. destruct (poll_interval <? 0)%Z; [discriminate|].
  destruct (sleeping (polled self findall_id w) poll_interval);
    [reflexivity|discriminate|discriminate].
Qed.

(** A loop that has at most [n] rounds of budget left sends at most
    [n + 1] requests, however much fuel it is given. *)
Lemma wait_loop_served n :
  forall fuel start w,
    (0 < poll_interval)%Z ->
    (forall j, 0 <= latency (replies w j)) ->
    inject_Z max_wait <= (now w - start) + times n (inject_Z poll_interval) ->
    (served (snd (wait_loop fuel self findall_id poll_interval max_wait
                    start w))
     <= served w + n + 1)%nat.
Proof.
  induction n as [|n IH]; intros fuel start w Hpi Hlat Hbudget;
    (destruct fuel as [|fuel]; [cbn; lia|]).
  - destruct (in_time max_wait start w) eqn:Ht.
    + apply in_time_true in Ht. cbn in Hbudget. lra.
    + rewrite (wait_loop_timeout _ _ _ _ fuel start w Ht). cbn. lia.
  - destruct (in_time max_wait start w) eqn:Ht.
    2:{ rewrite (wait_loop_timeout _ _ _ _ fuel start w Ht). cbn. lia. }
    pose proof (polled_served w) as Hp.
    destruct (poll_cases self findall_id w) as [[d Hd]|[name Hd]].
    2:{ rewrite (wait_loop_aborted _ _ _ _ fuel start w name Ht Hd).
        cbn [snd]. lia. }
    destruct (truthy (dict_get d "success")) eqn:Hs.
    2:{ rewrite (wait_loop_failed _ _ _ _ fuel start w d Ht Hd Hs).
        cbn [snd]. lia. }
    destruct (truthy (dict_get d "is_active")) eqn:Ha.
    2:{ rewrite (wait_loop_finished _ _ poll_interval max_wait fuel start w
                   d Ht Hd Hs Ha).
        cbn [snd].
        pose proof (results_served (polled self findall_id w)). lia. }
    rewrite (wait_loop_active self findall_id poll_interval max_wait fuel
               start w d Ht Hd Hs Ha).
    destruct (fst (time_sleep poll_interval (polled self findall_id w)))
      as [u|e|e] eqn:Hsl; [|cbn [snd]; lia|cbn [snd]; lia].
    assert (Hle : (served (snd (wait_loop fuel self findall_id poll_interval
                                  max_wait start
                                  (round self findall_id poll_interval w)))
                   <= served (round self findall_id poll_interval w) + n + 1)
                  %nat).
    { apply IH; [assumption| |].
      - intros j. rewrite round_replies, polled_replies. apply Hlat.
      - rewrite (round_clock_returned w u Hsl).
        pose proof (polled_clock self findall_id w (Hlat _)) as Hc.
        cbn in Hbudget. lra. }
    rewrite round_served in Hle. lia.
Qed.

End RequestBound.

(** X16.  With a positive [poll_interval] and a clock that does not run
    backwards, a wait sends at most [max_wait / poll_interval + 2]
    requests, however long it is left running. *)
Theorem wait_request_bound
  (fuel : nat) (self : t) (findall_id : string) (poll_interval max_wait : Z)
  (w : World) :
  (0 < poll_interval)%Z ->
  (forall j, 0 <= latency (replies w j)) ->
  (served (snd (wait_for_completion fuel self findall_id poll_interval
                  max_wait w))
   <= served w + Z.to_nat (max_wait / poll_interval) + 2)%nat.
Proof.
  intros Hpi Hlat. rewrite wait_for_completion_loop.
  pose proof (wait_loop_served self findall_id poll_interval max_wait
                (S (Z.to_nat (max_wait / poll_interval))) fuel (now w) w
                Hpi Hlat) as H.
  assert (Hb : inject_Z max_wait
               <= now w - now w
                  + times (S (Z.to_nat (max_wait / poll_interval)))
                      (inject_Z poll_interval)).
  { pose proof (enough_fuel_budget poll_interval max_wait Hpi). lra. }
  specialize (H Hb). lia.
Qed.

Lemma wait_request_bound_witness :
  (served (snd (wait_for_completion 50 (handler_with_key "k") "fa_1" 100 300
                  world_slow))
   <= 0 + 3 + 2)%nat.
Proof.
  apply (wait_request_bound 50 (handler_with_key "k") "fa_1" 100 300
           world_slow).
  - lia.
  - apply script_latency. repeat constructor; cbn; discriminate.
Defined.

Section EntryPointFacts.

Variable json_loads : string -> exc value.
Variable json_dumps : value -> string.

(** An entry point that serialises what a handler method returns gives the
    text of its envelope, and lets out what the method lets out. *)
Lemma serialised_text (c : M dict) (w : World) :
  bind c (fun result => ret (json_dumps (VDict result))) w
  = (text_of json_dumps (fst (c w)), snd (c w)).
Proof. unfold bind, ret. destruct (c w) as [[d|e|e] w']; reflexivity. Qed.

(** X17.  The entry points of status, results, extend and cancel end as the
    handler method they call ends: they return the text of the envelope it
    returns, let out what it lets out, and leave the world it leaves.  So
    they raise no exception that derives from Exception. *)
Theorem entry_points_return_text
  (findall_id : string) (n : value)
  (_snowflake_module : option SnowflakeModule) (w : World) :
  UDF.get_findall_status json_dumps findall_id _snowflake_module w
  = (text_of json_dumps
       (fst (get_findall_status {| _snowflake := _snowflake_module |}
               findall_id w)),
     snd (get_findall_status {| _snowflake := _snowflake_module |}
            findall_id w))
  /\ UDF.get_findall_results json_dumps findall_id _snowflake_module w
     = (text_of json_dumps
          (fst (get_findall_results {| _snowflake := _snowflake_module |}
                  findall_id w)),
        snd (get_findall_results {| _snowflake := _snowflake_module |}
               findall_id w))
  /\ UDF.extend_findall json_dumps findall_id n _snowflake_module w
     = (text_of json_dumps
          (fst (extend_findall {| _snowflake := _snowflake_module |}
                  findall_id n w)),
        snd (extend_findall {| _snowflake := _snowflake_module |}
               findall_id n w))
  /\ UDF.cancel_findall json_dumps findall_id _snowflake_module w
     = (text_of json_dumps
          (fst (cancel_findall {| _snowflake := _snowflake_module |}
                  findall_id w)),
        snd (cancel_findall {| _snowflake := _snowflake_module |}
               findall_id w))
  /\ (forall msg,
        fst (UDF.get_findall_status json_dumps findall_id _snowflake_module w)
        <> Exn msg
        /\ fst (UDF.get_findall_results json_dumps findall_id
                  _snowflake_module w)
           <> Exn msg
        /\ fst (UDF.extend_findall json_dumps findall_id n
                  _snowflake_module w)
           <> Exn msg
        /\ fst (UDF.cancel_findall json_dumps findall_id _snowflake_module w)
           <> Exn msg).
Proof.
  set (h := {| _snowflake := _snowflake_module |}).
  assert (H1 : UDF.get_findall_status json_dumps findall_id
                 _snowflake_module w
               = (text_of json_dumps (fst (get_findall_status h findall_id w)),
                  snd (get_findall_status h findall_id w)))
    by apply serialised_text.
  assert (H2 : UDF.get_findall_results json_dumps findall_id
                 _snowflake_module w
               = (text_of json_dumps
                    (fst (get_findall_results h findall_id w)),
                  snd (get_findall_results h findall_id w)))
    by apply serialised_text.
  assert (H3 : UDF.extend_findall json_dumps findall_id n _snowflake_module w
               = (text_of json_dumps (fst (extend_findall h findall_id n w)),
                  snd (extend_findall h findall_id n w)))
    by apply serialised_text.
  assert (H4 : UDF.cancel_findall json_dumps findall_id _snowflake_module w
               = (text_of json_dumps (fst (cancel_findall h findall_id w)),
                  snd (cancel_findall h findall_id w)))
    by apply serialised_text.
  repeat (split; [assumption|]).
  intros msg. rewrite H1, H2, H3, H4. cbn [fst].
  pose proof (perform_catches h (Status findall_id) w msg) as C1.
  pose proof (perform_catches h (Results findall_id) w msg) as C2.
  pose proof (perform_catches h (Extend findall_id n) w msg) as C3.
  pose proof (perform_catches h (Cancel findall_id) w msg) as C4.
  cbn in C1, C2, C3, C4.
  repeat split; intros H;
    [destruct (fst (get_findall_status h findall_id w))
    |destruct (fst (get_findall_results h findall_id w))
    |destruct (fst (extend_findall h findall_id n w))
    |destruct (fst (cancel_findall h findall_id w))];
    cbn in H; congruence.
Qed.

(** X18.  The entry point of create decodes a textual [match_conditions_json]
    and hands any other value over as it is; it gives the handler neither
    an [exclude_list] nor a [metadata], and ends as the handler method
    ends, with the text of the envelope it returns; it does return a text
    when nothing raises outside [Exception].  When the text cannot be
    decoded the exception of [json.loads] escapes and nothing is sent. *)
Theorem create_entry_point
  (objective entity_type : string) (match_conditions_json : value)
  (generator : option string) (match_limit : option Z)
  (_snowflake_module : option SnowflakeModule) (w : World) :
  (forall match_conditions,
     decoded json_loads match_conditions_json = Val match_conditions ->
     UDF.create_findall_run json_loads json_dumps objective entity_type
       match_conditions_json generator match_limit _snowflake_module w
     = (text_of json_dumps
          (fst (create_findall_run {| _snowflake := _snowflake_module |}
                  objective entity_type match_conditions generator
                  match_limit VNone VNone w)),
        snd (create_findall_run {| _snowflake := _snowflake_module |}
               objective entity_type match_conditions generator
               match_limit VNone VNone w)))
  /\ (forall match_conditions,
        decoded json_loads match_conditions_json = Val match_conditions ->
        secret_quiet {| _snowflake := _snowflake_module |} ->
        network_quiet w ->
        exists d,
          fst (create_findall_run {| _snowflake := _snowflake_module |}
                 objective entity_type match_conditions generator match_limit
                 VNone VNone w) = Val d
          /\ UDF.create_findall_run json_loads json_dumps objective
               entity_type match_conditions_json generator match_limit
               _snowflake_module w
             = (Val (json_dumps (VDict d)),
                snd (create_findall_run {| _snowflake := _snowflake_module |}
                       objective entity_type match_conditions generator
                       match_limit VNone VNone w)))
  /\ (forall msg,
        decoded json_loads match_conditions_json = Exn msg ->
        UDF.create_findall_run json_loads json_dumps objective entity_type
          match_conditions_json generator match_limit _snowflake_module w
        = (Exn msg, w)).
Proof.
  set (h := {| _snowflake := _snowflake_module |}).
  assert (Heq : forall mc,
            decoded json_loads match_conditions_json = Val mc ->
            UDF.create_findall_run json_loads json_dumps objective entity_type
              match_conditions_json generator match_limit _snowflake_module w
            = (text_of json_dumps
                 (fst (create_findall_run h objective entity_type mc
                         generator match_limit VNone VNone w)),
               snd (create_findall_run h objective entity_type mc generator
                      match_limit VNone VNone w))).
  { intros mc Hmc.
    unfold UDF.create_findall_run. fold h.
    unfold bind at 1.
    assert (Hdec : (match match_conditions_json with
                    | VStr s => lift (json_loads s)
                    | _ => ret match_conditions_json
                    end) w = (Val mc, w)).
    { destruct match_conditions_json; cbn in Hmc; unfold lift, ret;
        congruence. }
    rewrite Hdec. apply serialised_text. }
  split; [exact Heq|]. split.
  - intros mc Hmc Hsq Hnq.
    destruct (perform_returns_quiet h
                (Create objective entity_type mc generator match_limit
                   VNone VNone) w Hsq Hnq) as [d Hd].
    cbn in Hd. exists d. split; [exact Hd|].
    rewrite (Heq mc Hmc), Hd. reflexivity.
  - intros msg Hmsg. unfold UDF.create_findall_run, bind, lift, ret.
    destruct match_conditions_json; cbn in Hmsg; try discriminate.
    rewrite Hmsg. reflexivity.
Qed.

(** X19.  The entry point of enrich hands the processor over as it is: a
    missing processor (None) is sent as null, the default of the handler
    method is not applied.  It ends as the handler method ends, and returns
    a text when the network raises nothing outside Exception. *)
Theorem enrich_entry_point_forwards
  (findall_id : string) (output_schema_json processor : value)
  (m : SnowflakeModule) (key : string) (w : World) (output_schema : value) :
  get_generic_secret_string m "api_key" = Val key ->
  decoded json_loads output_schema_json = Val output_schema ->
  exists r,
    UDF.enrich_findall json_loads json_dumps findall_id output_schema_json
      processor (Some m) w
    = (text_of json_dumps
         (fst (enrich_findall {| _snowflake := Some m |} findall_id
                 output_schema processor w)),
       after_send r w)
    /\ method r = POST
    /\ url r = "https://api.parallel.ai/v1beta/findall/runs/" ++ findall_id
               ++ "/enrich"
    /\ body r = Some (VDict [("processor", processor);
                             ("output_schema", output_schema)])
    /\ (network_quiet w ->
        exists text,
          UDF.enrich_findall json_loads json_dumps findall_id
            output_schema_json processor (Some m) w
          = (Val text, after_send r w)).
Proof.
  intros Hk Hdec.
  set (h := {| _snowflake := Some m |}).
  assert (Hkey : _get_api_key h = Val key) by exact Hk.
  assert (Hw : exists r,
             snd (enrich_findall h findall_id output_schema processor w)
             = after_send r w
             /\ method r = POST
             /\ url r = "https://api.parallel.ai/v1beta/findall/runs/"
                        ++ findall_id ++ "/enrich"
             /\ body r = Some (VDict [("processor", processor);
                                      ("output_schema", output_schema)])).
  { unfold_ops. rewrite Hkey. cbn. eexists. split;
      [repeat (break_match; cbn in *; try reflexivity)
      |cbn; repeat split; reflexivity]. }
  destruct Hw as (r & Hw & Hm & Hu & Hb).
  assert (Heq : UDF.enrich_findall json_loads json_dumps findall_id
                  output_schema_json processor (Some m) w
                = (text_of json_dumps
                     (fst (enrich_findall h findall_id output_schema
                             processor w)),
                   after_send r w)).
  { unfold UDF.enrich_findall. fold h. unfold bind at 1.
    assert (Hd' : (match output_schema_json with
                   | VStr s => lift (json_loads s)
                   | _ => ret output_schema_json
                   end) w = (Val output_schema, w)).
    { destruct output_schema_json; cbn in Hdec; unfold lift, ret;
        congruence. }
    rewrite Hd', <- Hw. apply serialised_text. }
  exists r. repeat (split; [assumption|]).
  intros Hq.
  destruct (perform_returns_quiet h
              (Enrich findall_id output_schema processor) w) as [d Hd];
    [intros name H; rewrite Hkey in H; discriminate|exact Hq|].
  cbn in Hd. exists (json_dumps (VDict d)). rewrite Heq, Hd. reflexivity.
Qed.

End EntryPointFacts.

Lemma entry_points_return_text_witness :
  fst (UDF.cancel_findall dumps_opaque "fa_1"
         (_snowflake (handler_with_key "k")) world_rejecting)
  = Val "<json>"
  /\ fst (UDF.get_findall_status dumps_opaque "fa_1"
            (_snowflake (handler_with_key "k")) world_interrupted)
     = Abort "KeyboardInterrupt"
  /\ fst (UDF.get_findall_results dumps_opaque "fa_1" None world_results)
     <> Exn "Snowflake module not initialized".
Proof.
  destruct (entry_points_return_text dumps_opaque "fa_1" VNone
              (_snowflake (handler_with_key "k")) world_rejecting)
    as (_ & _ & _ & Hc & _).
  destruct (entry_points_return_text dumps_opaque "fa_1" VNone
              (_snowflake (handler_with_key "k")) world_interrupted)
    as (Hs & _).
  destruct (entry_points_return_text dumps_opaque "fa_1" VNone None
              world_results) as (_ & _ & _ & _ & Hn).
  split; [rewrite Hc; reflexivity|].
  split; [rewrite Hs; reflexivity|].
  apply (Hn "Snowflake module not initialized").
Defined.

Lemma create_entry_point_witness :
  UDF.create_findall_run loads_sample dumps_opaque "AI companies" "companies"
    (VStr "{revenue") None None (_snowflake (handler_with_key "k"))
    (world_of [])
  = (Exn "Expecting property name enclosed in double quotes: line 1 column 2 (char 1)",
     world_of [])
  /\ fst (UDF.create_findall_run loads_sample dumps_opaque "AI companies"
            "companies" (VList []) None None
            (_snowflake (handler_with_key "k")) world_rejecting)
     = Val "<json>".
Proof.
  split.
  - apply (proj2 (proj2 (create_entry_point loads_sample dumps_opaque
                           "AI companies" "companies" (VStr "{revenue") None
                           None (_snowflake (handler_with_key "k"))
                           (world_of [])))).
    reflexivity.
  - destruct (proj1 (proj2 (create_entry_point loads_sample dumps_opaque
                              "AI companies" "companies" (VList []) None None
                              (_snowflake (handler_with_key "k"))
                              world_rejecting))
                (VList []) eq_refl) as (d & _ & H).
    + intros name Hn. discriminate Hn.
    + apply (script_quiet _ world_rejecting eq_refl). reflexivity.
    + rewrite H. reflexivity.
Defined.

Lemma enrich_entry_point_forwards_witness :
  exists r text,
    UDF.enrich_findall loads_sample dumps_opaque "fa_1" (VStr "{}") VNone
      (_snowflake (handler_with_key "k")) world_rejecting
    = (Val text, after_send r world_rejecting)
    /\ method r = POST
    /\ url r = "https://api.parallel.ai/v1beta/findall/runs/fa_1/enrich"
    /\ body r = Some (VDict [("processor", VNone);
                             ("output_schema", VDict [])]).
Proof.
  destruct (enrich_entry_point_forwards loads_sample dumps_opaque "fa_1"
              (VStr "{}") VNone
              {| get_generic_secret_string :=
                   fun name =>
                     if String.eqb name "api_key" then Val "k"
                     else Exn ("Secret not found: " ++ name) |}
              "k" world_rejecting (VDict []) eq_refl eq_refl)
    as (r & _ & Hm & Hu & Hb & Hq).
  destruct Hq as [text Ht].
  { apply (script_quiet _ world_rejecting eq_refl). reflexivity. }
  exists r, text. auto.
Defined.

Section RegistryFacts.

Variables gsuite_tools salesforce_tools perplexity_tools parallel_web_tools
  : list value.

#[local] Abbreviation get_tools :=
  (ToolSpecs.get_tools gsuite_tools salesforce_tools perplexity_tools
     parallel_web_tools).
#[local] Abbreviation get_tools_loop :=
  (ToolSpecs.get_tools_loop gsuite_tools salesforce_tools perplexity_tools
     parallel_web_tools).
#[local] Abbreviation tools_of :=
  (ToolSpecs.tools_of gsuite_tools salesforce_tools perplexity_tools
     parallel_web_tools).
#[local] Abbreviation registered :=
  (ToolSpecs.registered gsuite_tools salesforce_tools perplexity_tools
     parallel_web_tools).

Lemma get_tools_loop_known names :
  forall tools,
    forallb registered names = true ->
    get_tools_loop tools names = Val (tools ++ flat_map tools_of names)%list.
Proof.
  induction names as [|name rest IH]; intros tools H.
  - cbn. rewrite app_nil_r. reflexivity.
  - cbn [forallb] in H. apply andb_true_iff in H as [Hn Hrest].
    cbn [ToolSpecs.get_tools_loop flat_map].
    unfold ToolSpecs.registered in Hn. unfold ToolSpecs.tools_of at 1.
    destruct (ToolSpecs.registry_get name _) as [set|]; [|discriminate].
    rewrite (IH _ Hrest), app_assoc. reflexivity.
Qed.

(** X20.  When every name is registered, [get_tools] returns the tools of the
    names one after the other, in the order of the names: a name given
    twice brings its tools twice, and no name brings none. *)
Theorem get_tools_concatenates (names : list string) :
  forallb registered names = true ->
  get_tools names = Val (flat_map tools_of names).
Proof.
  intros H. unfold ToolSpecs.get_tools.
  rewrite (get_tools_loop_known names [] H). reflexivity.
Qed.

(** X21.  The first name that is not registered makes [get_tools] raise, with a
    message that names it and lists the four registered sets; what comes
    after it is not looked at. *)
Theorem get_tools_unknown (known : list string) (bad : string)
  (rest : list string) :
  forallb registered known = true ->
  registered bad = false ->
  get_tools (known ++ bad :: rest)%list
  = Exn ("Unknown tool set: " ++ bad
         ++ ". Available: ['gsuite_tools', 'salesforce_tools', 'perplexity_tools', 'parallel_web_tools']").
Proof.
  intros Hk Hb. unfold ToolSpecs.get_tools.
  generalize (@nil value) as tools.
  induction known as [|name known IH]; intros tools.
  - cbn [app ToolSpecs.get_tools_loop].
    unfold ToolSpecs.registered in Hb.
    destruct (ToolSpecs.registry_get bad _); [discriminate|]. reflexivity.
  - cbn [forallb] in Hk. apply andb_true_iff in Hk as [Hn Hk].
    cbn [app ToolSpecs.get_tools_loop].
    unfold ToolSpecs.registered in Hn.
    destruct (ToolSpecs.registry_get name _); [|discriminate].
    apply IH. exact Hk.
Qed.

End RegistryFacts.

Lemma get_tools_concatenates_witness :
  ToolSpecs.get_tools [VStr "docs"] [VStr "sfdc"] [] [VStr "findall"]
    ["parallel_web_tools"; "perplexity_tools"; "gsuite_tools";
     "parallel_web_tools"]
  = Val [VStr "findall"; VStr "docs"; VStr "findall"].
Proof.
  apply (get_tools_concatenates [VStr "docs"] [VStr "sfdc"] []
           [VStr "findall"]).
  reflexivity.
Defined.

Lemma get_tools_unknown_witness :
  ToolSpecs.get_tools [VStr "docs"] [VStr "sfdc"] [] [VStr "findall"]
    ["gsuite_tools"; "Parallel_Web_Tools"; "no_such_set"]
  = Exn "Unknown tool set: Parallel_Web_Tools. Available: ['gsuite_tools', 'salesforce_tools', 'perplexity_tools', 'parallel_web_tools']".
Proof.
  apply (get_tools_unknown [VStr "docs"] [VStr "sfdc"] [] [VStr "findall"]
           ["gsuite_tools"] "Parallel_Web_Tools" ["no_such_set"]);
    reflexivity.
Defined.

(** X10.  A 200 whose body decodes to something that is not an object (an
    array, a string, a number, null) makes every call fail with the text
    of the AttributeError. *)
Theorem non_object_body_fails
  (self : t) (op : operation) (w : World) (key : string) (r : Response)
  (v : value) :
  _get_api_key self = Val key ->
  outcome (replies w (served w)) = Val r ->
  status_code r = 200%Z ->
  json r = Val v ->
  is_dict v = false ->
  fst (perform self op w)
  = Val (failure op ("'" ++ type_name v
                     ++ "' object has no attribute 'get'")).
Proof.
  intros Hk Ho Hs Hj Hv. apply Z.eqb_eq in Hs.
  destruct op; unfold_ops; rewrite Hk; cbn; rewrite Ho, Hs, Hj;
    destruct v; try discriminate; reflexivity.
Qed.

Lemma non_object_body_fails_witness :
  fst (perform (handler_with_key "k") (Status "fa_1") world_array_body)
  = Val [("success", VBool false);
         ("error", VStr "'list' object has no attribute 'get'");
         ("findall_id", VStr "fa_1")].
Proof.
  apply (non_object_body_fails (handler_with_key "k") (Status "fa_1")
           world_array_body "k"
           {| status_code := 200; text := "[]"; json := Val (VList []) |}
           (VList [])); reflexivity.
Defined.

Lemma matched_of_first_bad pre bad post :
  forallb is_dict pre = true ->
  is_dict bad = false ->
  matched_of (pre ++ bad :: post)
  = Exn ("'" ++ type_name bad ++ "' object has no attribute 'get'").
Proof.
  intros Hpre Hbad. induction pre as [|c pre IH].
  - cbn. destruct bad; try discriminate; reflexivity.
  - cbn [forallb] in Hpre. apply andb_true_iff in Hpre as [Hc Hpre].
    cbn [app matched_of]. rewrite (IH Hpre).
    destruct c; try discriminate. reflexivity.
Qed.

(** X11.  One candidate that is not an object makes the whole retrieval fail,
    whatever the other candidates are: the error is the AttributeError of
    the first such candidate. *)
Theorem results_fail_on_bad_candidate
  (self : t) (findall_id : string) (w : World) (key : string) (r : Response)
  (d : dict) (pre post : list value) (bad : value) :
  _get_api_key self = Val key ->
  outcome (replies w (served w)) = Val r ->
  status_code r = 200%Z ->
  json r = Val (VDict d) ->
  lookup "candidates" d = Some (VList (pre ++ bad :: post)) ->
  forallb is_dict pre = true ->
  is_dict bad = false ->
  fst (get_findall_results self findall_id w)
  = Val [("success", VBool false);
         ("error", VStr ("'" ++ type_name bad
                         ++ "' object has no attribute 'get'"));
         ("findall_id", VStr findall_id)].
Proof.
  intros Hk Ho Hs Hj Hc Hpre Hbad. apply Z.eqb_eq in Hs.
  unfold_ops. rewrite Hk. cbn. rewrite Ho, Hs, Hj. cbn. rewrite Hc. cbn.
  rewrite (matched_of_first_bad pre bad post Hpre Hbad). reflexivity.
Qed.

Lemma results_fail_on_bad_candidate_witness :
  fst (get_findall_results (handler_with_key "k") "fa_1"
         world_bad_candidate)
  = Val [("success", VBool false);
         ("error", VStr "'str' object has no attribute 'get'");
         ("findall_id", VStr "fa_1")].
Proof.
  apply (results_fail_on_bad_candidate (handler_with_key "k") "fa_1"
           world_bad_candidate "k"
           {| status_code := 200; text := "";
              json := Val (result_body
                             (VList [candidate "Acme" "matched";
                                     VStr "Bolt";
                                     candidate "Core" "matched"])) |}
           [("run", run_body "completed" false);
            ("candidates", VList [candidate "Acme" "matched";
                                  VStr "Bolt";
                                  candidate "Core" "matched"])]
           [candidate "Acme" "matched"] [candidate "Core" "matched"]
           (VStr "Bolt")); reflexivity.
Defined.
